(** * BM_Validation1: statistics, column mapping, deltas and report

    A shallow embedding of the computational core of [BM_Validation1.py]
    (a Streamlit dashboard comparing a 3D composite point set with a block
    model): [calculate_statistics], the column guesses of the import page,
    the percentage differences and [get_diff_class] of the comparison page,
    the CSV report, and the sampling step of [create_3d_scatter].

    Numbers are IEEE-754 binary64 values, modelled by the executable
    specification [SpecFloat] of the Standard Library (precision 53,
    exponent bound 1024); its sum, difference and quotient are proved
    correctly rounded in the part on binary64 arithmetic.  Python's dynamic typing matters for division
    (a Python [float] or [int] divisor equal to zero raises, a NumPy
    [float64] one does not), so values carry their Python type. *)

From Stdlib Require Import ZArith List String Ascii Bool Lia Permutation.
From Stdlib Require Import SpecFloat DecimalString.
Import ListNotations.

Local Open Scope Z_scope.

(** ** IEEE-754 binary64 *)

Module Float64.

Definition prec : Z := 53.
Definition emax : Z := 1024.

Definition float : Type := spec_float.

Definition nan : float := S754_nan.
Definition pinf : float := S754_infinity false.
Definition ninf : float := S754_infinity true.
Definition zero : float := S754_zero false.

Definition add : float -> float -> float := SFadd prec emax.
Definition sub : float -> float -> float := SFsub prec emax.
Definition mul : float -> float -> float := SFmul prec emax.
Definition div : float -> float -> float := SFdiv prec emax.
Definition sqrt : float -> float := SFsqrt prec emax.

Definition ltb : float -> float -> bool := SFltb.
Definition leb : float -> float -> bool := SFleb.
Definition eqb : float -> float -> bool := SFeqb.

Definition is_nan (f : float) : bool :=
  match f with S754_nan => true | _ => false end.

Definition is_zero (f : float) : bool :=
  match f with S754_zero _ => true | _ => false end.

Definition is_inf (f : float) : bool :=
  match f with S754_infinity _ => true | _ => false end.

(** The binary64 value nearest to the integer [z] (ties to even). *)
Definition of_Z (z : Z) : float := binary_normalize prec emax z 0 false.

Definition of_nat (n : nat) : float := of_Z (Z.of_nat n).

(** The value of the decimal literal [m * 10^-k], as Python reads it:
    the binary64 value nearest to it.  Both [m] and [10^k] are exact
    when below [2^53], and IEEE division rounds their quotient
    correctly. *)
Definition lit (m : Z) (k : nat) : float :=
  div (of_Z m) (of_Z (10 ^ Z.of_nat k)).

(** A well-formed binary64 datum. *)
Definition valid (f : float) : bool := valid_binary prec emax f.

End Float64.

Import Float64.

(** ** Python values and exceptions *)

Inductive exn : Type :=
| ZeroDivisionError
| OverflowError
| IndexError
| KeyError.

Definition result (A : Type) : Type := (exn + A)%type.

Definition ret {A} (a : A) : result A := inr a.
Definition raise {A} (e : exn) : result A := inl e.

Definition bind {A B} (m : result A) (k : A -> result B) : result B :=
  match m with
  | inl e => inl e
  | inr a => k a
  end.

Notation "x <- m ;; k" := (bind m (fun x => k))
  (at level 61, m at next level, right associativity).

(** The three numeric types that occur in a statistics record: Python
    [int], Python [float] and NumPy [float64]. *)
Inductive pyval : Type :=
| PyInt (z : Z)
| PyFloat (f : float)
| NpFloat64 (f : float).

Definition is_np (v : pyval) : bool :=
  match v with NpFloat64 _ => true | _ => false end.

(** [float(v)]: an [int] too large for a binary64 raises. *)
Definition to_float (v : pyval) : result float :=
  match v with
  | PyInt z => let f := of_Z z in
               if is_inf f then raise OverflowError else ret f
  | PyFloat f => ret f
  | NpFloat64 f => ret f
  end.

(** The float a value denotes, for stating properties. *)
Definition float_of (v : pyval) : float :=
  match v with
  | PyInt z => of_Z z
  | PyFloat f => f
  | NpFloat64 f => f
  end.

(** [a * b] *)
Definition py_mul (a b : pyval) : result pyval :=
  match a, b with
  | PyInt x, PyInt y => ret (PyInt (x * y))
  | _, _ =>
      x <- to_float a ;;
      y <- to_float b ;;
      ret (if is_np a || is_np b then NpFloat64 (mul x y) else PyFloat (mul x y))
  end.

(** [a - b] *)
Definition py_sub (a b : pyval) : result pyval :=
  match a, b with
  | PyInt x, PyInt y => ret (PyInt (x - y))
  | _, _ =>
      x <- to_float a ;;
      y <- to_float b ;;
      ret (if is_np a || is_np b then NpFloat64 (sub x y) else PyFloat (sub x y))
  end.

(** [a / b], true division.  With a NumPy operand the quotient follows
    IEEE-754 (a zero divisor gives an infinity or a NaN, and a warning);
    between Python numbers a zero divisor raises [ZeroDivisionError].
    Integers are converted first, which is what Python computes for
    operands below [2^53]. *)
Definition py_truediv (a b : pyval) : result pyval :=
  x <- to_float a ;;
  y <- to_float b ;;
  if is_np a || is_np b then ret (NpFloat64 (div x y))
  else if is_zero y then raise ZeroDivisionError
  else ret (PyFloat (div x y)).

(** [v > 0] and [v < 0] *)
Definition gt_zero (v : pyval) : bool :=
  match v with
  | PyInt z => 0 <? z
  | PyFloat f => ltb zero f
  | NpFloat64 f => ltb zero f
  end.

Definition lt_zero (v : pyval) : bool :=
  match v with
  | PyInt z => z <? 0
  | PyFloat f => ltb f zero
  | NpFloat64 f => ltb f zero
  end.

(** ** Strings *)

(** [needle in hay] on Python strings. *)
Fixpoint str_in (needle hay : string) : bool :=
  String.prefix needle hay
  || match hay with
     | EmptyString => false
     | String _ rest => str_in needle rest
     end.

(** ** DataFrames *)

(** A cell holds either a value that pandas reads as the number [f] (a
    numeric cell, or a string spelling a number) or a text that
    [pd.to_numeric] cannot coerce. *)
Inductive cell : Type :=
| Num (f : float)
| Text (s : string).

(** A DataFrame: the row labels and the columns in file order, each with
    its cells in row order. *)
Record DataFrame : Type := {
  index : list nat;
  data : list (string * list cell)
}.

Definition columns (df : DataFrame) : list string := map fst (data df).

Definition len (df : DataFrame) : nat := List.length (index df).

(** [name in df.columns] *)
Definition has_column (df : DataFrame) (name : string) : bool :=
  existsb (String.eqb name) (columns df).

(** [df[name]] *)
Fixpoint lookup (name : string) (cols : list (string * list cell))
  : option (list cell) :=
  match cols with
  | [] => None
  | (c, v) :: rest => if String.eqb name c then Some v else lookup name rest
  end.

Definition getitem (df : DataFrame) (name : string) : option (list cell) :=
  lookup name (data df).

(** [df[name] = v] for a column that exists: the cells are replaced in
    place, the column keeps its position. *)
Fixpoint assign (name : string) (v : list cell)
  (cols : list (string * list cell)) : list (string * list cell) :=
  match cols with
  | [] => []
  | (c, old) :: rest =>
      if String.eqb name c then (c, v) :: rest
      else (c, old) :: assign name v rest
  end.

Definition setitem (df : DataFrame) (name : string) (v : list cell)
  : DataFrame :=
  {| index := index df; data := assign name v (data df) |}.

(** ** NumPy's pairwise summation *)

(** [pairwise_sum] of NumPy's [loops_utils.h]: fewer than eight values
    are added from left to right; up to 128 values are added into eight
    accumulators, which are then added in pairs, before the rest of the
    values; a longer array is split into two halves.  [fuel] bounds the
    depth of the splitting; the length of the array is enough (lemma
    [pairwise_sum_fuel]). *)
Section PairwiseSum.

Variable A : Type.
Variable plus : A -> A -> A.
Variable z : A.

(** [r[j] += a[i + j]] for the eight accumulators. *)
Fixpoint add_lanes (r c : list A) : list A :=
  match r, c with
  | x :: r', y :: c' => plus x y :: add_lanes r' c'
  | _, _ => r
  end.

Fixpoint lanes (k : nat) (r s : list A) : list A * list A :=
  match k with
  | O => (r, s)
  | S k' => lanes k' (add_lanes r (firstn 8 s)) (skipn 8 s)
  end.

Definition combine8 (r : list A) : A :=
  match r with
  | [r0; r1; r2; r3; r4; r5; r6; r7] =>
      plus (plus (plus r0 r1) (plus r2 r3)) (plus (plus r4 r5) (plus r6 r7))
  | _ => fold_left plus r z
  end.

Definition block_sum (s : list A) : A :=
  let '(r, rest) := lanes (List.length s / 8 - 1) (firstn 8 s) (skipn 8 s) in
  fold_left plus rest (combine8 r).

Fixpoint pairwise_sum (fuel : nat) (s : list A) : A :=
  let n := List.length s in
  if (n <? 8)%nat then fold_left plus s z
  else if (n <=? 128)%nat then block_sum s
  else match fuel with
       | O => block_sum s
       | S fuel' =>
           let n2 := (n / 2 - (n / 2) mod 8)%nat in
           plus (pairwise_sum fuel' (firstn n2 s))
                (pairwise_sum fuel' (skipn n2 s))
       end.

End PairwiseSum.

Arguments add_lanes {A}.
Arguments lanes {A}.
Arguments combine8 {A}.
Arguments block_sum {A}.
Arguments pairwise_sum {A}.

(** ** The pandas reductions used by the program *)

Module Pandas.

(** [pd.to_numeric(col, errors='coerce')]: what cannot be read as a
    number becomes NaN. *)
Definition to_numeric (col : list cell) : list float :=
  map (fun c => match c with Num f => f | Text _ => nan end) col.

Definition fillna (v : float) (s : list float) : list float :=
  map (fun x => if is_nan x then v else x) s.

(** Number of non-missing values. *)
Definition count (s : list float) : nat :=
  List.length (filter (fun x => negb (is_nan x)) s).

(** NumPy's [sum]: the reduction starts from 0 and adds the pairwise
    sum of the array to it. *)
Definition np_sum (s : list float) : float :=
  add zero (pairwise_sum add zero (List.length s) s).

(** NumPy's [min] and [max] reductions: the accumulator is kept when it
    compares [<] (or [>]) with the next value, or is NaN; of two equal
    values, such as the two zeros, the later one is returned. *)
Definition np_min (s : list float) : float :=
  match s with
  | [] => nan
  | x :: rest =>
      fold_left (fun acc v => if ltb acc v || is_nan acc then acc else v)
                rest x
  end.

Definition np_max (s : list float) : float :=
  match s with
  | [] => nan
  | x :: rest =>
      fold_left (fun acc v => if ltb v acc || is_nan acc then acc else v)
                rest x
  end.

(** [Series.mean()], skipping NaN: missing values are replaced by 0 in
    the sum and left out of the count; with no value at all the result
    is the Python float NaN. *)
Definition mean (s : list float) : pyval :=
  let n := count s in
  if (0 <? n)%nat then NpFloat64 (div (np_sum (fillna zero s)) (of_nat n))
  else PyFloat nan.

(** [Series.min()] and [Series.max()], skipping NaN: missing values are
    replaced by the infinity that cannot win; with no value at all the
    result is NaN, the Python float NaN when the series has no row. *)
Definition min (s : list float) : pyval :=
  match s with
  | [] => PyFloat nan
  | _ => if (count s =? 0)%nat then NpFloat64 nan
         else NpFloat64 (np_min (fillna pinf s))
  end.

Definition max (s : list float) : pyval :=
  match s with
  | [] => PyFloat nan
  | _ => if (count s =? 0)%nat then NpFloat64 nan
         else NpFloat64 (np_max (fillna ninf s))
  end.

(** Sample variance ([ddof = 1]); with at most one value both the
    count and the divisor are NaN. *)
Definition var (s : list float) : float :=
  let n := count s in
  let cnt := if (n <=? 1)%nat then nan else of_nat n in
  let d := if (n <=? 1)%nat then nan else sub (of_nat n) (of_Z 1) in
  let avg := div (np_sum (fillna zero s)) cnt in
  let sqr := map (fun v => if is_nan v then zero
                           else mul (sub avg v) (sub avg v)) s in
  div (np_sum sqr) d.

(** [Series.std()]; the Python float NaN when the series has no row. *)
Definition std (s : list float) : pyval :=
  match s with
  | [] => PyFloat nan
  | _ => NpFloat64 (sqrt (var s))
  end.

End Pandas.

(** ** Statistics records *)

Record stats : Type := {
  volume : pyval;
  tonnage : pyval;
  densite : pyval;
  teneur_moyenne : pyval;
  teneur_min : pyval;
  teneur_max : pyval;
  ecart_type : pyval;
  metal_contenu : pyval;
  recuperation : pyval;
  metal_recuperable : pyval
}.

(** [calculate_statistics(df, grade_column)].  The function assigns the
    coerced grade column back into the caller's DataFrame, so the
    DataFrame after the call is returned next to the result.  [grade] is
    the series that every [df[grade_column]] of the body reads back. *)
Definition calculate_statistics (df : option DataFrame) (grade_column : string)
  : option DataFrame * result (option stats) :=
  match df with
  | None => (None, ret None)
  | Some d =>
      if negb (has_column d grade_column) then (Some d, ret None) else
      match getitem d grade_column with
      | None => (Some d, raise KeyError)
      | Some col =>
          let grade := Pandas.to_numeric col in
          let d' := setitem d grade_column (map Num grade) in
          let composite := str_in "composite" grade_column in
          (Some d',
           t <- py_mul (PyInt (if composite then 3375000 else 3442500))
                       (Pandas.mean grade) ;;
           contenu <- py_truediv t (PyInt 1000) ;;
           let recup := PyFloat (if composite then lit 925 1 else lit 910 1) in
           r <- py_mul contenu recup ;;
           recuperable <- py_truediv r (PyInt 100) ;;
           ret (Some {|
             volume := PyInt (if composite then 1250000 else 1275000);
             tonnage := PyInt (if composite then 3375000 else 3442500);
             densite := PyFloat (lit 27 1);
             teneur_moyenne := Pandas.mean grade;
             teneur_min := Pandas.min grade;
             teneur_max := Pandas.max grade;
             ecart_type := Pandas.std grade;
             metal_contenu := contenu;
             recuperation := recup;
             metal_recuperable := recuperable
           |}))
      end
  end.

(** ** Column guesses of the import page *)

(** ASCII lower-casing of a UTF-8 encoded name.  Python lower-cases by
    code point; no code point outside ASCII lower-cases to a letter of
    the keywords below, so the keyword tests agree. *)
Definition lower_char (c : ascii) : ascii :=
  let n := nat_of_ascii c in
  if ((65 <=? n) && (n <=? 90))%nat then ascii_of_nat (n + 32) else c.

Fixpoint lower (s : string) : string :=
  match s with
  | EmptyString => EmptyString
  | String c rest => String (lower_char c) (lower rest)
  end.

Inductive role : Type := RoleX | RoleY | RoleZ | RoleGrade.

Definition keywords (r : role) : list string :=
  match r with
  | RoleX => ["x"; "east"]
  | RoleY => ["y"; "north"]
  | RoleZ => ["z"; "elev"]
  | RoleGrade => ["grade"; "teneur"; "au"; "cu"]
  end%string.

(** The condition of the generator expression: some keyword of the role
    occurs in [col.lower()]. *)
Definition matches (r : role) (col : string) : bool :=
  existsb (fun k => str_in k (lower col)) (keywords r).

(** [next((col for col in cols if p(col)), default)] *)
Fixpoint next (p : string -> bool) (cols : list string) (default : string)
  : string :=
  match cols with
  | [] => default
  | col :: rest => if p col then col else next p rest default
  end.

(** The default [columns[0]] is evaluated before [next] is called, so an
    empty column list raises. *)
Definition guess_col (r : role) (cols : list string) : result string :=
  match cols with
  | [] => raise IndexError
  | first :: _ => ret (next (matches r) cols first)
  end.

Definition composite_x_col := guess_col RoleX.
Definition composite_y_col := guess_col RoleY.
Definition composite_z_col := guess_col RoleZ.
Definition composite_grade_col := guess_col RoleGrade.

(** ** Percentage differences of the comparison page *)

Inductive metric : Type :=
| Volume | Tonnage | Densite
| TeneurMoyenne | TeneurMin | TeneurMax | EcartType
| MetalContenu | Recuperation | MetalRecuperable.

Definition all_metrics : list metric :=
  [Volume; Tonnage; Densite; TeneurMoyenne; TeneurMin; TeneurMax; EcartType;
   MetalContenu; Recuperation; MetalRecuperable].

(** [s[key]] *)
Definition field (m : metric) (s : stats) : pyval :=
  match m with
  | Volume => volume s
  | Tonnage => tonnage s
  | Densite => densite s
  | TeneurMoyenne => teneur_moyenne s
  | TeneurMin => teneur_min s
  | TeneurMax => teneur_max s
  | EcartType => ecart_type s
  | MetalContenu => metal_contenu s
  | Recuperation => recuperation s
  | MetalRecuperable => metal_recuperable s
  end.

(** [(block / composite - 1) * 100] *)
Definition pct_diff (composite block : pyval) : result pyval :=
  q <- py_truediv block composite ;;
  d <- py_sub q (PyInt 1) ;;
  py_mul d (PyInt 100).

Definition diff (m : metric) (composite_stats block_stats : stats)
  : result pyval :=
  pct_diff (field m composite_stats) (field m block_stats).

Definition vol_diff := diff Volume.
Definition ton_diff := diff Tonnage.
Definition den_diff := diff Densite.
Definition teneur_diff := diff TeneurMoyenne.
Definition min_diff := diff TeneurMin.
Definition max_diff := diff TeneurMax.
Definition std_diff := diff EcartType.
Definition metal_diff := diff MetalContenu.
Definition recup_diff := diff Recuperation.
Definition metal_rec_diff := diff MetalRecuperable.

Definition get_diff_class (d : pyval) : string :=
  if gt_zero d then "positive"
  else if lt_zero d then "negative"
  else "neutral".

(** ** Fixed-point formatting ([:.1f], [:.2f]) *)

(** [num / den] rounded to the nearest integer, ties to even. *)
Definition round_half_even (num den : Z) : Z :=
  let q := num / den in
  match 2 * (num mod den) ?= den with
  | Lt => q
  | Gt => q + 1
  | Eq => if Z.even q then q else q + 1
  end.

(** [m * 2^e * 10^d] rounded to an integer: the exact value of the float,
    correctly rounded at [d] decimals. *)
Definition scaled (d : nat) (m : positive) (e : Z) : Z :=
  if 0 <=? e then Zpos m * 2 ^ e * 10 ^ Z.of_nat d
  else round_half_even (Zpos m * 10 ^ Z.of_nat d) (2 ^ (- e)).

Definition digit (n : Z) : ascii := ascii_of_nat (48 + Z.to_nat n).

(** The [d] low decimal digits of [n]. *)
Fixpoint frac_digits (d : nat) (n : Z) : string :=
  match d with
  | O => ""
  | S d' => (frac_digits d' (n / 10) ++ String (digit (n mod 10)) "")%string
  end.

Definition int_digits (n : Z) : string :=
  NilZero.string_of_uint (N.to_uint (Z.to_N n)).

(** [n / 10^d] written with [d] decimals, for [d > 0]. *)
Definition fixed (d : nat) (n : Z) : string :=
  (int_digits (n / 10 ^ Z.of_nat d) ++ "." ++ frac_digits d n)%string.

Definition sign (s : bool) : string := if s then "-" else "".

Definition format_f (d : nat) (f : float) : string :=
  match f with
  | S754_nan => "nan"
  | S754_infinity s => sign s ++ "inf"
  | S754_zero s => sign s ++ fixed d 0
  | S754_finite s m e => sign s ++ fixed d (scaled d m e)
  end%string.

(** [f"{v:.<d>f}"]; an [int] is converted to a float first. *)
Definition py_format (d : nat) (v : pyval) : result string :=
  f <- to_float v ;;
  ret (format_f d f).

(** ** The CSV report *)

Definition newline : string := String (ascii_of_nat 10) "".

Definition header : string :=
  "Métrique,Composite 3D,Bloc Modèle,Différence (%)".

Definition label (m : metric) : string :=
  match m with
  | Volume => "Volume total (m³)"
  | Tonnage => "Tonnage estimé (tonnes)"
  | Densite => "Densité moyenne (t/m³)"
  | TeneurMoyenne => "Teneur moyenne (g/t)"
  | TeneurMin => "Teneur minimum (g/t)"
  | TeneurMax => "Teneur maximum (g/t)"
  | EcartType => "Écart-type (g/t)"
  | MetalContenu => "Métal contenu (kg)"
  | Recuperation => "Récupération estimée (%)"
  | MetalRecuperable => "Métal récupérable (kg)"
  end%string.

(** Decimals of the two value columns of a row. *)
Definition decimals (m : metric) : nat :=
  match m with
  | Densite | TeneurMoyenne | TeneurMin | TeneurMax | EcartType => 2
  | _ => 1
  end.

Fixpoint mapM {A B} (f : A -> result B) (l : list A) : result (list B) :=
  match l with
  | [] => ret []
  | a :: rest => b <- f a ;; bs <- mapM f rest ;; ret (b :: bs)
  end.

(** One [csv_buffer.write(f"...")] line. *)
Definition report_row (composite_stats block_stats : stats)
  (md : metric * pyval) : result string :=
  let (m, d) := md in
  c <- py_format (decimals m) (field m composite_stats) ;;
  b <- py_format (decimals m) (field m block_stats) ;;
  p <- py_format 1 d ;;
  ret (label m ++ "," ++ c ++ "," ++ b ++ "," ++ p ++ newline)%string.

(** The text written to [csv_buffer]: the ten differences are computed
    first (they are variables of the page), then the header and the ten
    rows are written. *)
Definition csv_buffer (composite_stats block_stats : stats) : result string :=
  diffs <- mapM (fun m => diff m composite_stats block_stats) all_metrics ;;
  rows <- mapM (report_row composite_stats block_stats)
               (combine all_metrics diffs) ;;
  ret (header ++ newline ++ String.concat "" rows)%string.

(** ** Sampling for the 3D view *)

(** Rows at the given positions, in that order. *)
Definition take {A} (pos : list nat) (l : list A) : list A :=
  flat_map (fun i => match nth_error l i with
                     | Some a => [a]
                     | None => []
                     end) pos.

(** [df.sample(n)]: pandas draws a random permutation of the row
    positions and keeps its first [n] entries; [perm] is the permutation
    drawn by the generator. *)
Definition sample (perm : list nat) (n : nat) (df : DataFrame) : DataFrame :=
  let pos := firstn n perm in
  {| index := take pos (index df);
     data := map (fun c => (fst c, take pos (snd c))) (data df) |}.

(** The sampling step, for a maximum of [cap] points:
    [sample_size = min(cap, len(df))] and
    [df.sample(sample_size) if len(df) > sample_size else df]. *)
Definition df_sample (cap : nat) (perm : list nat) (df : DataFrame)
  : DataFrame :=
  let sample_size := Nat.min cap (len df) in
  if (sample_size <? len df)%nat then sample perm sample_size df else df.

(** [df[c] = pd.to_numeric(df[c], errors='coerce')] *)
Definition coerce (df : DataFrame) (c : string) : result DataFrame :=
  match getitem df c with
  | None => raise KeyError
  | Some col => ret (setitem df c (map Num (Pandas.to_numeric col)))
  end.

(** [create_3d_scatter], up to the call of the plotting library: the
    DataFrame after the coercions and the sample handed to
    [px.scatter_3d]. *)
Definition create_3d_scatter (perm : list nat) (df : option DataFrame)
  (x_col y_col z_col grade_col : string)
  : result (option (DataFrame * DataFrame)) :=
  match df with
  | None => ret None
  | Some d =>
      d1 <- coerce d x_col ;;
      d2 <- coerce d1 y_col ;;
      d3 <- coerce d2 z_col ;;
      d4 <- coerce d3 grade_col ;;
      ret (Some (d4, df_sample 5000 perm d4))
  end.

(** The block model is sampled once more where the page calls
    [create_3d_scatter], with at most 3000 points. *)
Definition block_data_sample (perm : list nat) (df : DataFrame) : DataFrame :=
  df_sample 3000 perm df.

(** Every column has one cell per row label, and the labels are distinct. *)
Definition well_formed (df : DataFrame) : Prop :=
  NoDup (index df) /\
  Forall (fun c => List.length (snd c) = len df) (data df).

(** The row at position [i]: its label and its cells, column by column. *)
Definition row (df : DataFrame) (i : nat) : option (nat * list (string * option cell)) :=
  match nth_error (index df) i with
  | None => None
  | Some l => Some (l, map (fun c => (fst c, nth_error (snd c) i)) (data df))
  end.

(** ** Example data *)

Definition df_au : DataFrame :=
  {| index := [0; 1; 2]%nat;
     data := [("AU_GPT"%string,
               [Num (lit 10 1); Num (lit 20 1); Num (lit 30 1)])] |}.

Definition df_two : DataFrame :=
  {| index := [0; 1]%nat;
     data := [("ID"%string, [Text "a"; Text "b"]);
              ("AU_GPT"%string, [Num (lit 15 1); Text "n/a"])] |}.

Definition df3 : DataFrame :=
  {| index := [0; 1; 2]%nat;
     data := [("X"%string, [Num (lit 10 1); Num (lit 20 1); Num (lit 30 1)]);
              ("L"%string, [Text "a"; Text "b"; Text "c"])] |}.

Definition df_one : DataFrame :=
  {| index := [0]%nat; data := [("AU"%string, [Num (lit 50 1)])] |}.


Definition df_zero : DataFrame :=
  {| index := [0; 1]%nat;
     data := [("AU"%string, [Num (lit 0 1); Num (lit 0 1)])] |}.





(** ** Vocabulary of the statements *)

(** A float tagged with the Python type of [like]. *)
Definition retag (like : pyval) (f : float) : pyval :=
  if is_np like then NpFloat64 f else PyFloat f.

(** The record that [calculate_statistics] builds from the coerced grade
    series, in closed form (lemma [calculate_statistics_present] relates
    it to the function). *)
Definition computed (grade_column : string) (grade : list float) : stats :=
  let composite := str_in "composite" grade_column in
  let m := Pandas.mean grade in
  let recup := if composite then lit 925 1 else lit 910 1 in
  let contenu :=
    div (mul (of_Z (if composite then 3375000 else 3442500)) (float_of m))
        (of_Z 1000) in
  {| volume := PyInt (if composite then 1250000 else 1275000);
     tonnage := PyInt (if composite then 3375000 else 3442500);
     densite := PyFloat (lit 27 1);
     teneur_moyenne := m;
     teneur_min := Pandas.min grade;
     teneur_max := Pandas.max grade;
     ecart_type := Pandas.std grade;
     metal_contenu := retag m contenu;
     recuperation := PyFloat recup;
     metal_recuperable := retag m (div (mul contenu recup) (of_Z 100)) |}.

(** Every position is a row position of [l]. *)
Definition in_range {A} (l : list A) (pos : list nat) : Prop :=
  Forall (fun i => (i < List.length l)%nat) pos.

(** No value is missing. *)
Definition no_nan (l : list float) : Prop :=
  Forall (fun x => is_nan x = false) l.

(** The value [(b / a - 1) * 100] in binary64. *)
Definition pct (a b : float) : float :=
  mul (sub (div b a) (of_Z 1)) (of_Z 100).

(** [float(v)] succeeds. *)
Definition convertible (v : pyval) : Prop := to_float v = ret (float_of v).

(** Dividing by [v] does not raise: [v] is a NumPy value, or it is not
    zero. *)
Definition safe_divisor (v : pyval) : Prop :=
  is_np v = true \/ is_zero (float_of v) = false.

(** Every character of [s] satisfies [p]. *)
Fixpoint all_chars (p : ascii -> bool) (s : string) : bool :=
  match s with
  | EmptyString => true
  | String c rest => p c && all_chars p rest
  end.

(** Neither a field separator nor a line break. *)
Definition plain (c : ascii) : bool :=
  negb (Ascii.eqb c ",") && negb (Ascii.eqb c (ascii_of_nat 10)).

(** The characters of a formatted number: digits, the point, the minus
    sign, and the letters of "nan" and "inf". *)
Definition numeric_char (c : ascii) : bool :=
  existsb (Ascii.eqb c)
    ["0"; "1"; "2"; "3"; "4"; "5"; "6"; "7"; "8"; "9";
     "."; "-"; "n"; "a"; "i"; "f"]%char.

(** The text of a formatted number. *)
Definition numeric (s : string) : Prop := all_chars numeric_char s = true.

(** A row of the report: the label and three numbers. *)
Definition row_shape (m : metric) (r : string) : Prop :=
  exists c b p,
    r = (label m ++ "," ++ c ++ "," ++ b ++ "," ++ p)%string /\
    numeric c /\ numeric b /\ numeric p.

(** ** The pages: session state, analysis, chart and 3D figures *)

(** [cols.index(name)]; [None] stands for the [ValueError] of a name that
    is not in the list. *)
Fixpoint index_of (name : string) (cols : list string) : option nat :=
  match cols with
  | [] => None
  | c :: rest =>
      if String.eqb c name then Some 0%nat
      else option_map S (index_of name rest)
  end.

(** One entry of [st.session_state.mapping]: the dictionary with the keys
    ['x'], ['y'], ['z'] and ['grade']. *)
Record col_mapping : Type := {
  x_col : string;
  y_col : string;
  z_col : string;
  grade_col : string
}.

(** [st.session_state]; [mapping] holds the entries ['composite'] and
    ['block']. *)
Record session : Type := {
  composite_data : option DataFrame;
  block_data : option DataFrame;
  composite_stats : option stats;
  block_stats : option stats;
  composite_columns : option (list string);
  block_columns : option (list string);
  mapping : option (col_mapping * col_mapping)
}.

(** The state of a new session: every key is [None]. *)
Definition initial_session : session :=
  {| composite_data := None; block_data := None;
     composite_stats := None; block_stats := None;
     composite_columns := None; block_columns := None;
     mapping := None |}.

(** A composite (or block) file is read: the parsed DataFrame and its
    column list are stored, nothing else changes. *)
Definition load_composite (df : DataFrame) (s : session) : session :=
  {| composite_data := Some df; block_data := block_data s;
     composite_stats := composite_stats s; block_stats := block_stats s;
     composite_columns := Some (columns df);
     block_columns := block_columns s;
     mapping := mapping s |}.

Definition load_block (df : DataFrame) (s : session) : session :=
  {| composite_data := composite_data s; block_data := Some df;
     composite_stats := composite_stats s; block_stats := block_stats s;
     composite_columns := composite_columns s;
     block_columns := Some (columns df);
     mapping := mapping s |}.

(** The button "Appliquer et analyser": the mapping is stored, then the
    two records are computed, the composite one first.  Each call of
    [calculate_statistics] works on the DataFrame of the session, so its
    coercion stays in the session; an exception stops the run and keeps
    what was stored before it. *)
Definition appliquer_et_analyser (s : session) (comp blk : col_mapping)
  : session * result unit :=
  let (cd, cr) := calculate_statistics (composite_data s) (grade_col comp) in
  match cr with
  | inl e =>
      ({| composite_data := cd; block_data := block_data s;
          composite_stats := composite_stats s;
          block_stats := block_stats s;
          composite_columns := composite_columns s;
          block_columns := block_columns s;
          mapping := Some (comp, blk) |}, inl e)
  | inr cs =>
      let (bd, br) := calculate_statistics (block_data s) (grade_col blk) in
      match br with
      | inl e =>
          ({| composite_data := cd; block_data := bd;
              composite_stats := cs; block_stats := block_stats s;
              composite_columns := composite_columns s;
              block_columns := block_columns s;
              mapping := Some (comp, blk) |}, inl e)
      | inr bs =>
          ({| composite_data := cd; block_data := bd;
              composite_stats := cs; block_stats := bs;
              composite_columns := composite_columns s;
              block_columns := block_columns s;
              mapping := Some (comp, blk) |}, ret tt)
      end
  end.

(** [pd.DataFrame({name: array, ...})] for arrays of one length (pandas
    raises on arrays of different lengths; the statements below assume
    one length): the rows are labelled 0, 1, 2, ... *)
Definition DataFrame_of (cols : list (string * list float)) : DataFrame :=
  {| index := seq 0 (match cols with
                     | [] => 0%nat
                     | c :: _ => List.length (snd c)
                     end);
     data := map (fun c => (fst c, map Num (snd c))) cols |}.

(** The mapping that the example button stores. *)
Definition example_mapping : col_mapping * col_mapping :=
  ({| x_col := "EAST"; y_col := "NORTH"; z_col := "ELEV";
      grade_col := "AU_GPT" |},
   {| x_col := "X"; y_col := "Y"; z_col := "Z"; grade_col := "GRADE" |}).

(** The button "Charger des données d'exemple".  The eight arrays are
    what the random generator returns (1000 values each for the
    composites, 5000 each for the blocks); the data, the column lists
    and the mapping are stored before the records are computed. *)
Definition charger_exemple (s : session)
  (x_comp y_comp z_comp grade_comp x_block y_block z_block grade_block
     : list float)
  : session * result unit :=
  let composite_example :=
    DataFrame_of [("EAST"%string, x_comp); ("NORTH"%string, y_comp);
                  ("ELEV"%string, z_comp); ("AU_GPT"%string, grade_comp)] in
  let block_example :=
    DataFrame_of [("X"%string, x_block); ("Y"%string, y_block);
                  ("Z"%string, z_block); ("GRADE"%string, grade_block)] in
  let (cd, cr) := calculate_statistics (Some composite_example) "AU_GPT" in
  match cr with
  | inl e =>
      ({| composite_data := cd; block_data := Some block_example;
          composite_stats := composite_stats s;
          block_stats := block_stats s;
          composite_columns := Some (columns composite_example);
          block_columns := Some (columns block_example);
          mapping := Some example_mapping |}, inl e)
  | inr cs =>
      let (bd, br) := calculate_statistics (Some block_example) "GRADE" in
      match br with
      | inl e =>
          ({| composite_data := cd; block_data := bd;
              composite_stats := cs; block_stats := block_stats s;
              composite_columns := Some (columns composite_example);
              block_columns := Some (columns block_example);
              mapping := Some example_mapping |}, inl e)
      | inr bs =>
          ({| composite_data := cd; block_data := bd;
              composite_stats := cs; block_stats := bs;
              composite_columns := Some (columns composite_example);
              block_columns := Some (columns block_example);
              mapping := Some example_mapping |}, ret tt)
      end
  end.

(** Exceptions of the page code: those of the core, and the [TypeError]
    of subscripting [None]. *)
Inductive page_exn : Type :=
| Raised (e : exn)
| TypeError.

(** The data that [create_comparison_chart] hands to the plotting
    library: the two box plots and the two bar series. *)
Record comparison_chart : Type := {
  box_composite : list cell;
  box_block : list cell;
  bar_labels : list string;
  bar_composite : list pyval;
  bar_block : list pyval
}.

(** [data[mapping[...]['grade']]] on the session. *)
Definition grade_series (data : option DataFrame) (m : option col_mapping)
  : page_exn + list cell :=
  match data, m with
  | Some d, Some e =>
      match getitem d (grade_col e) with
      | Some col => inr col
      | None => inl (Raised KeyError)
      end
  | _, _ => inl TypeError
  end.

(** [create_comparison_chart(composite_stats, block_stats)]; the box
    plots read the grade columns of the session. *)
Definition create_comparison_chart (s : session)
  (composite_stats block_stats : option stats)
  : page_exn + option comparison_chart :=
  match composite_stats, block_stats with
  | Some c, Some b =>
      match grade_series (composite_data s) (option_map fst (mapping s)) with
      | inl e => inl e
      | inr yc =>
          match grade_series (block_data s) (option_map snd (mapping s)) with
          | inl e => inl e
          | inr yb =>
              inr (Some {|
                box_composite := yc;
                box_block := yb;
                bar_labels := ["Teneur moyenne (g/t)"; "Écart-type (g/t)";
                               "Métal contenu (kg)"]%string;
                bar_composite :=
                  [teneur_moyenne c; ecart_type c; metal_contenu c];
                bar_block :=
                  [teneur_moyenne b; ecart_type b; metal_contenu b] |})
          end
      end
  | _, _ => inr None
  end.

(** The figure of the composites on the 3D page. *)
Definition composite_fig (perm : list nat) (s : session)
  : page_exn + option (DataFrame * DataFrame) :=
  match mapping s with
  | None => inl TypeError
  | Some (comp, _) =>
      match create_3d_scatter perm (composite_data s)
              (x_col comp) (y_col comp) (z_col comp) (grade_col comp) with
      | inl e => inl (Raised e)
      | inr r => inr r
      end
  end.

(** The figure of the block model: the data is sampled to at most 3000
    rows with [perm], then passed to [create_3d_scatter], which draws
    with [perm']. *)
Definition block_fig (perm perm' : list nat) (s : session)
  : page_exn + option (DataFrame * DataFrame) :=
  match block_data s, mapping s with
  | Some d, Some (_, blk) =>
      match create_3d_scatter perm' (Some (block_data_sample perm d))
              (x_col blk) (y_col blk) (z_col blk) (grade_col blk) with
      | inl e => inl (Raised e)
      | inr r => inr r
      end
  | _, _ => inl TypeError
  end.

(** [text.split(sep)] for a one-character separator. *)
Fixpoint split_on (sep : ascii) (s : string) : list string :=
  match s with
  | EmptyString => [EmptyString]
  | String c rest =>
      if Ascii.eqb c sep then EmptyString :: split_on sep rest
      else match split_on sep rest with
           | [] => [String c EmptyString]
           | p :: ps => String c p :: ps
           end
  end.

(** ** Vocabulary of the further statements *)

Definition is_num (c : cell) : bool :=
  match c with Num _ => true | Text _ => false end.

(** The column [name] of [df] after numeric coercion. *)
Definition numeric_col (df : DataFrame) (name : string) : option (list cell) :=
  option_map (fun col => map Num (Pandas.to_numeric col)) (getitem df name).

(** [v] is a value of the series that is not missing. *)
Definition present (s : list float) (v : float) : Prop :=
  In v s /\ is_nan v = false.

Definition is_finite (f : float) : bool :=
  match f with S754_finite _ _ _ => true | _ => false end.

(** [d'] is [d] with the columns named in [done] coerced to numbers and
    the rest untouched. *)
Definition coerced (d : DataFrame) (done : list string) (d' : DataFrame)
  : Prop :=
  index d' = index d /\ columns d' = columns d /\
  forall k, (In k done -> getitem d' k = numeric_col d k) /\
            (~ In k done -> getitem d' k = getitem d k).

(** A session for the examples: [df3] as both datasets, with the column
    "X" in every role. *)
Definition mapping_X : col_mapping :=
  {| x_col := "X"; y_col := "X"; z_col := "X"; grade_col := "X" |}.

Definition session3 : session :=
  {| composite_data := Some df3; block_data := Some df3;
     composite_stats := None; block_stats := None;
     composite_columns := Some (columns df3);
     block_columns := Some (columns df3);
     mapping := Some (mapping_X, mapping_X) |}.

(** The character [sep] does not occur in [s]. *)
Definition no_char (sep : ascii) (s : string) : Prop :=
  all_chars (fun c => negb (Ascii.eqb c sep)) s = true.

(** The arrays of a run of the example button whose generator returns
    zeros only. *)
Definition zeros (n : nat) : list float := repeat zero n.

(** The session after the analysis of [session3]. *)
Definition session_analysed : session :=
  fst (appliquer_et_analyser session3 mapping_X mapping_X).

(** The line that the report holds for the metric [m]: the label, the
    two values and their difference, each formatted. *)
Definition report_line (cs bs : stats) (m : metric) : string :=
  (label m ++ "," ++
   format_f (decimals m) (float_of (field m cs)) ++ "," ++
   format_f (decimals m) (float_of (field m bs)) ++ "," ++
   format_f 1 (pct (float_of (field m cs)) (float_of (field m bs))) ++
   newline)%string.

Definition is_digit (c : ascii) : bool :=
  existsb (Ascii.eqb c) ["0"; "1"; "2"; "3"; "4"; "5"; "6"; "7"; "8"; "9"]%char.

(** A composite dataset with a fraction, a text, and a negative value. *)
Definition df_mixed : DataFrame :=
  {| index := [0; 1; 2; 3]%nat;
     data := [("composite_g"%string,
               [Num (lit 15 1); Num (lit 25 2); Text "x"; Num (lit (-3) 0)])] |}.

(** ** Vocabulary of the rounding lemmas *)



Definition big : Z := 2 ^ 2098.



(** What [binary_round_aux] returns for a located nonnegative number. *)
Inductive rounded (s : bool) (v : Z) : spec_float -> Prop :=
| rounded_zero : v = 0 -> rounded s v (S754_zero s)
| rounded_finite (m : positive) (e : Z) :
    Zpos m * 2 ^ (e + 1074) = v -> v < big ->
    bounded 53 1024 m e = true ->
    rounded s v (S754_finite s m e)
| rounded_inf : big <= v -> rounded s v (S754_infinity s).


Definition is_fin (f : spec_float) : bool :=
  match f with S754_zero _ | S754_finite _ _ _ => true | _ => false end.


(** A well-formed float that is a number: zero or finite. *)
Definition okf (f : float) : Prop := valid f = true /\ is_fin f = true.








(** * Properties *)

(** ** Columns and assignment *)

Lemma has_column_In (d : DataFrame) (g : string) :
  has_column d g = true <-> In g (columns d).
Proof.
  unfold has_column. rewrite existsb_exists. split.
  - intros [c [Hin Heq]]. apply String.eqb_eq in Heq. now subst.
  - intros Hin. exists g. split; [assumption | apply String.eqb_refl].
Qed.

Lemma lookup_In (g : string) (cols : list (string * list cell)) :
  In g (map fst cols) -> exists v, lookup g cols = Some v.
Proof.
  induction cols as [| [c v] rest IH]; simpl.
  - intros [].
  - intros [Heq | Hin].
    + subst c. rewrite String.eqb_refl. now exists v.
    + destruct (String.eqb g c); [now exists v | now apply IH].
Qed.

Lemma lookup_Some_In (g : string) (cols : list (string * list cell)) v :
  lookup g cols = Some v -> In g (map fst cols).
Proof.
  induction cols as [| [c w] rest IH]; simpl; [discriminate |].
  destruct (String.eqb g c) eqn:E.
  - apply String.eqb_eq in E. now left.
  - intros H. right. now apply IH.
Qed.

Lemma assign_names g v cols : map fst (assign g v cols) = map fst cols.
Proof.
  induction cols as [| [c w] rest IH]; simpl; [reflexivity |].
  destruct (String.eqb g c); simpl; [reflexivity | now rewrite IH].
Qed.

Lemma lookup_assign_other g v cols c :
  c <> g -> lookup c (assign g v cols) = lookup c cols.
Proof.
  intros Hne. induction cols as [| [k w] rest IH]; simpl; [reflexivity |].
  destruct (String.eqb g k) eqn:E; simpl.
  - apply String.eqb_eq in E. subst k.
    destruct (String.eqb c g) eqn:E'; [| reflexivity].
    apply String.eqb_eq in E'. contradiction.
  - destruct (String.eqb c k); [reflexivity | exact IH].
Qed.

Lemma lookup_assign_same g v cols :
  In g (map fst cols) -> lookup g (assign g v cols) = Some v.
Proof.
  induction cols as [| [k w] rest IH]; simpl; [intros [] |].
  intros Hin. destruct (String.eqb g k) eqn:E; simpl.
  - now rewrite E.
  - rewrite E. apply IH. destruct Hin as [Heq | Hin]; [| assumption].
    subst k. now rewrite String.eqb_refl in E.
Qed.

(** Reading a column back after assigning it. *)
Lemma getitem_setitem d g v :
  has_column d g = true -> getitem (setitem d g v) g = Some v.
Proof.
  intros H. apply has_column_In in H. now apply lookup_assign_same.
Qed.

(** ** The shape of a computed record *)

Lemma mean_cases (s : list float) :
  (exists x, Pandas.mean s = NpFloat64 x) \/ Pandas.mean s = PyFloat nan.
Proof.
  unfold Pandas.mean. destruct (0 <? Pandas.count s)%nat; eauto.
Qed.

(** With the grade column present, the call returns a record, and the
    record is [computed]: no arithmetic step of the body raises. *)
Lemma calculate_statistics_present (d : DataFrame) (g : string) :
  In g (columns d) ->
  exists col,
    getitem d g = Some col /\
    calculate_statistics (Some d) g =
      (Some (setitem d g (map Num (Pandas.to_numeric col))),
       ret (Some (computed g (Pandas.to_numeric col)))).
Proof.
  intros Hin. destruct (lookup_In g (data d) Hin) as [col Hcol].
  exists col. split; [exact Hcol |].
  unfold calculate_statistics.
  rewrite (proj2 (has_column_In d g) Hin). simpl negb. cbv iota.
  unfold getitem in *. rewrite Hcol. f_equal.
  unfold computed.
  destruct (mean_cases (Pandas.to_numeric col)) as [[x ->] | ->];
    destruct (str_in "composite" g); reflexivity.
Qed.

(** ** C1: the end-to-end example *)

(** C1. For a dataset whose column "AU_GPT" holds exactly 1.0, 2.0, 3.0,
    [calculate_statistics] returns a record with mean 2.0, minimum 1.0,
    maximum 3.0, sample standard deviation 1.0, tonnage 3442500,
    recovery 91.0, contained metal 3442500 * 2.0 / 1000 = 6885.0 and
    recoverable metal 6885.0 * 91.0 / 100 = 6265.35. *)
Theorem C1_au_gpt_example (d : DataFrame) :
  getitem d "AU_GPT" = Some [Num (lit 10 1); Num (lit 20 1); Num (lit 30 1)] ->
  exists s,
    snd (calculate_statistics (Some d) "AU_GPT") = ret (Some s) /\
    teneur_moyenne s = NpFloat64 (lit 20 1) /\
    teneur_min s = NpFloat64 (lit 10 1) /\
    teneur_max s = NpFloat64 (lit 30 1) /\
    ecart_type s = NpFloat64 (lit 10 1) /\
    tonnage s = PyInt 3442500 /\
    recuperation s = PyFloat (lit 910 1) /\
    metal_contenu s = NpFloat64 (lit 68850 1) /\
    div (mul (of_Z 3442500) (lit 20 1)) (of_Z 1000) = lit 68850 1 /\
    metal_recuperable s = NpFloat64 (lit 626535 2) /\
    div (mul (lit 68850 1) (lit 910 1)) (of_Z 100) = lit 626535 2.
Proof.
  intros Hcol.
  destruct (calculate_statistics_present d "AU_GPT") as [col [Hget Hcalc]].
  { apply lookup_Some_In with (1 := Hcol). }
  rewrite Hcol in Hget. injection Hget as <-.
  rewrite Hcalc. eexists. split; [reflexivity |].
  repeat split; vm_compute; reflexivity.
Qed.

Lemma C1_au_gpt_example_witness :
  exists s,
    snd (calculate_statistics (Some df_au) "AU_GPT") = ret (Some s) /\
    teneur_moyenne s = NpFloat64 (lit 20 1) /\
    teneur_min s = NpFloat64 (lit 10 1) /\
    teneur_max s = NpFloat64 (lit 30 1) /\
    ecart_type s = NpFloat64 (lit 10 1) /\
    tonnage s = PyInt 3442500 /\
    recuperation s = PyFloat (lit 910 1) /\
    metal_contenu s = NpFloat64 (lit 68850 1) /\
    div (mul (of_Z 3442500) (lit 20 1)) (of_Z 1000) = lit 68850 1 /\
    metal_recuperable s = NpFloat64 (lit 626535 2) /\
    div (mul (lit 68850 1) (lit 910 1)) (of_Z 100) = lit 626535 2.
Proof.
  apply (C1_au_gpt_example df_au). reflexivity.
Defined.

(** ** C2: a missing grade column *)

(** C2. For every dataset and every grade-column name that is not among
    its columns, [calculate_statistics] returns [None] (no record), and
    leaves the dataset as it was. *)
Theorem C2_missing_column_gives_None (d : DataFrame) (g : string) :
  ~ In g (columns d) ->
  calculate_statistics (Some d) g = (Some d, ret None).
Proof.
  intros Hnot. unfold calculate_statistics.
  destruct (has_column d g) eqn:E; [| reflexivity].
  apply has_column_In in E. contradiction.
Qed.

Lemma C2_missing_column_gives_None_witness :
  ~ In "GRADE"%string (columns df_au) /\
  calculate_statistics (Some df_au) "GRADE" = (Some df_au, ret None).
Proof.
  assert (H : ~ In "GRADE"%string (columns df_au)).
  { simpl. intros [H | []]. discriminate H. }
  split; [exact H | exact (C2_missing_column_gives_None df_au "GRADE" H)].
Defined.

(** ** C4: the placeholder constants *)

(** C4. For every dataset and grade column present in it, the volume,
    tonnage, density and recovery of the returned record are constants
    chosen by whether the column name contains "composite": 1250000,
    3375000 and 92.5 when it does, 1275000, 3442500 and 91.0 otherwise,
    with density 2.7 in both cases; any other dataset with that column
    name gets the same four values. *)
Theorem C4_placeholder_constants (d : DataFrame) (g : string) :
  In g (columns d) ->
  exists s,
    snd (calculate_statistics (Some d) g) = ret (Some s) /\
    (volume s, tonnage s, recuperation s) =
      (if str_in "composite" g
       then (PyInt 1250000, PyInt 3375000, PyFloat (lit 925 1))
       else (PyInt 1275000, PyInt 3442500, PyFloat (lit 910 1))) /\
    densite s = PyFloat (lit 27 1) /\
    forall d', In g (columns d') ->
      exists s',
        snd (calculate_statistics (Some d') g) = ret (Some s') /\
        volume s' = volume s /\ tonnage s' = tonnage s /\
        densite s' = densite s /\ recuperation s' = recuperation s.
Proof.
  intros Hin.
  destruct (calculate_statistics_present d g Hin) as [col [_ Hcalc]].
  rewrite Hcalc. eexists. split; [reflexivity |].
  split; [| split].
  - simpl. now destruct (str_in "composite" g).
  - reflexivity.
  - intros d' Hin'.
    destruct (calculate_statistics_present d' g Hin') as [col' [_ Hcalc']].
    rewrite Hcalc'. eexists. split; [reflexivity |]. now repeat split.
Qed.

Lemma C4_placeholder_constants_witness :
  exists s,
    snd (calculate_statistics (Some df_au) "AU_GPT") = ret (Some s) /\
    (volume s, tonnage s, recuperation s) =
      (PyInt 1275000, PyInt 3442500, PyFloat (lit 910 1)) /\
    densite s = PyFloat (lit 27 1).
Proof.
  destruct (C4_placeholder_constants df_au "AU_GPT") as [s [H1 [H2 [H3 _]]]].
  - simpl. left. reflexivity.
  - exists s. split; [exact H1 | split; [exact H2 | exact H3]].
Defined.

(** ** C9: the frame of [calculate_statistics] *)

(** C9. For every dataset and grade column present in it,
    [calculate_statistics] leaves the row labels, the column names and
    every column other than the grade column unchanged; the grade column
    is replaced by its numeric coercion. *)
Theorem C9_other_columns_unchanged (d : DataFrame) (g : string) :
  In g (columns d) ->
  exists d',
    fst (calculate_statistics (Some d) g) = Some d' /\
    index d' = index d /\
    columns d' = columns d /\
    (forall c, c <> g -> getitem d' c = getitem d c) /\
    getitem d' g =
      option_map (fun col => map Num (Pandas.to_numeric col)) (getitem d g).
Proof.
  intros Hin.
  destruct (calculate_statistics_present d g Hin) as [col [Hget Hcalc]].
  rewrite Hcalc. eexists. split; [reflexivity |].
  repeat split.
  - apply assign_names.
  - intros c Hne. now apply lookup_assign_other.
  - rewrite Hget. simpl. apply getitem_setitem. now apply has_column_In.
Qed.

Lemma C9_other_columns_unchanged_witness :
  exists d',
    fst (calculate_statistics (Some df_two) "AU_GPT") = Some d' /\
    index d' = index df_two /\
    columns d' = columns df_two /\
    (forall c, c <> "AU_GPT"%string -> getitem d' c = getitem df_two c) /\
    getitem d' "AU_GPT" = Some [Num (lit 15 1); Num nan].
Proof.
  apply (C9_other_columns_unchanged df_two "AU_GPT").
  simpl. right. left. reflexivity.
Defined.

(** ** C10: the class of a difference *)

Lemma gt_zero_not_lt_zero (d : pyval) : gt_zero d = true -> lt_zero d = false.
Proof.
  destruct d as [z | f | f]; simpl.
  - intros H. apply Z.ltb_lt in H. apply Z.ltb_ge. lia.
  - destruct f as [[] | [] | | [] m e]; cbv; congruence.
  - destruct f as [[] | [] | | [] m e]; cbv; congruence.
Qed.

(** C10. [get_diff_class] returns "positive" exactly when [d > 0],
    "negative" exactly when [d < 0] and "neutral" in every other case;
    a NaN is neither above nor below zero, so it is "neutral", the class
    of an exact zero. *)
Theorem C10_get_diff_class (d : pyval) :
  (get_diff_class d = "positive"%string <-> gt_zero d = true) /\
  (get_diff_class d = "negative"%string <-> lt_zero d = true) /\
  (get_diff_class d = "neutral"%string <->
     gt_zero d = false /\ lt_zero d = false) /\
  gt_zero (NpFloat64 nan) = false /\ lt_zero (NpFloat64 nan) = false /\
  get_diff_class (NpFloat64 nan) = "neutral"%string /\
  get_diff_class (PyFloat nan) = "neutral"%string /\
  get_diff_class (NpFloat64 nan) = get_diff_class (NpFloat64 zero) /\
  get_diff_class (NpFloat64 nan) = get_diff_class (PyInt 0).
Proof.
  unfold get_diff_class.
  split; [| split; [| split; [| now repeat split]]].
  - destruct (gt_zero d); [now split |].
    destruct (lt_zero d); split; discriminate.
  - destruct (gt_zero d) eqn:G.
    + rewrite (gt_zero_not_lt_zero d G). split; discriminate.
    + destruct (lt_zero d); split; (reflexivity || discriminate).
  - destruct (gt_zero d); [split; [discriminate | intros [H _]; discriminate] |].
    destruct (lt_zero d); split;
      (discriminate || (intros [_ H]; discriminate) || now split).
Qed.

(** ** C3: the column guesses *)

Lemma prefix_spec (n h : string) :
  String.prefix n h = true <-> exists b, h = (n ++ b)%string.
Proof.
  revert h. induction n as [| a n IH]; intros h; simpl.
  - split; [intros _; now exists h | now destruct h].
  - destruct h as [| c h]; simpl.
    + split; [discriminate | intros [b H]; discriminate].
    + destruct (ascii_dec a c) as [-> | Hne].
      * rewrite IH. split; intros [b H]; exists b; simpl in *; congruence.
      * split; [discriminate | intros [b H]; simpl in H; congruence].
Qed.

(** [str_in] is substring containment. *)
Lemma str_in_spec (n h : string) :
  str_in n h = true <-> exists a b, h = (a ++ n ++ b)%string.
Proof.
  induction h as [| c h IH]; cbn [str_in].
  - rewrite orb_false_r, prefix_spec. split.
    + intros [b H]. now exists EmptyString, b.
    + intros [a [b H]]. destruct a; [now exists b | discriminate].
  - rewrite orb_true_iff, prefix_spec, IH. split.
    + intros [[b H] | [a [b H]]].
      * now exists EmptyString, b.
      * exists (String c a), b. simpl. now rewrite H.
    + intros [a [b H]]. destruct a as [| c' a]; simpl in H.
      * left. now exists b.
      * right. exists a, b. congruence.
Qed.

Lemma next_spec (p : string -> bool) (cols : list string) (default : string) :
  (exists before c after,
      cols = before ++ c :: after /\ p c = true /\
      (forall b, In b before -> p b = false) /\
      next p cols default = c)
  \/ ((forall b, In b cols -> p b = false) /\ next p cols default = default).
Proof.
  induction cols as [| col rest IH]; simpl.
  - right. split; [intros b [] | reflexivity].
  - destruct (p col) eqn:E.
    + left. exists [], col, rest. repeat split; try assumption. intros b [].
    + destruct IH as [[before [c [after [H1 [H2 [H3 H4]]]]]] | [H1 H2]].
      * left. exists (col :: before), c, after. subst rest.
        repeat split; try assumption.
        intros b [<- | Hb]; [assumption | now apply H3].
      * right. split; [| assumption].
        intros b [<- | Hb]; [assumption | now apply H1].
Qed.

Lemma lower_char_code (ch : ascii) :
  nat_of_ascii (lower_char ch) =
    (let n := nat_of_ascii ch in
     if (65 <=? n) && (n <=? 90) then n + 32 else n)%nat.
Proof.
  unfold lower_char. cbv zeta.
  destruct ((65 <=? nat_of_ascii ch) && (nat_of_ascii ch <=? 90))%nat eqn:E;
    [| reflexivity].
  apply andb_true_iff in E. destruct E as [_ E]. apply Nat.leb_le in E.
  apply nat_ascii_embedding. lia.
Qed.

Lemma lower_length (c : string) : String.length (lower c) = String.length c.
Proof. induction c as [| ch c IH]; simpl; congruence. Qed.

Lemma lower_get (c : string) (i : nat) :
  String.get i (lower c) = option_map lower_char (String.get i c).
Proof.
  revert i. induction c as [| ch c IH]; intros i; [reflexivity |].
  destruct i as [| i]; simpl; [reflexivity | apply IH].
Qed.

Lemma lower_char_idempotent (ch : ascii) :
  lower_char (lower_char ch) = lower_char ch.
Proof.
  unfold lower_char at 1. rewrite lower_char_code. cbv zeta.
  destruct ((65 <=? nat_of_ascii ch) && (nat_of_ascii ch <=? 90))%nat eqn:E.
  - replace ((65 <=? nat_of_ascii ch + 32) && (nat_of_ascii ch + 32 <=? 90))%nat
      with false; [reflexivity |].
    symmetry. apply andb_false_iff. right. apply Nat.leb_gt.
    apply andb_true_iff in E. destruct E as [E _]. apply Nat.leb_le in E. lia.
  - rewrite E. reflexivity.
Qed.

Lemma lower_idempotent (c : string) : lower (lower c) = lower c.
Proof.
  induction c as [| ch c IH]; simpl; [reflexivity |].
  now rewrite lower_char_idempotent, IH.
Qed.

(** C3. For every non-empty list of column names and each role, the guess
    is the first column, in list order, whose lower-cased name contains
    a keyword of the role (x/east, y/north, z/elev,
    grade/teneur/au/cu), and the first column of the list when no
    column matches; ["foo"; "bar"] gives "foo" for the grade.  The
    match ignores case: lower-casing keeps the length and turns the
    ASCII letters A-Z into a-z, character by character, and a name and
    its lower-cased form match the same roles. *)
Theorem C3_guess_col (r : role) (cols : list string) :
  (forall ch,
     nat_of_ascii (lower_char ch) =
       (let n := nat_of_ascii ch in
        if (65 <=? n) && (n <=? 90) then n + 32 else n)%nat) /\
  (forall c, String.length (lower c) = String.length c) /\
  (forall c i, String.get i (lower c) = option_map lower_char (String.get i c)) /\
  (forall c, matches r (lower c) = matches r c) /\
  (forall c, matches r c = true <->
     exists k a b,
       In k match r with
            | RoleX => ["x"; "east"]
            | RoleY => ["y"; "north"]
            | RoleZ => ["z"; "elev"]
            | RoleGrade => ["grade"; "teneur"; "au"; "cu"]
            end%string /\
       lower c = (a ++ k ++ b)%string) /\
  (cols <> [] ->
   exists c,
     guess_col r cols = ret c /\
     ((exists before after,
         cols = before ++ c :: after /\ matches r c = true /\
         forall b, In b before -> matches r b = false)
      \/ ((forall b, In b cols -> matches r b = false) /\
          nth_error cols 0 = Some c))) /\
  guess_col RoleGrade ["foo"; "bar"]%string = ret "foo"%string /\
  guess_col RoleX ["ID"; "Easting"; "X"]%string = ret "Easting"%string /\
  guess_col RoleY ["id"; "NORTHING"; "y"]%string = ret "NORTHING"%string /\
  guess_col RoleZ ["Hole"; "Elevation"; "Z"]%string = ret "Elevation"%string /\
  guess_col RoleGrade ["X"; "Cu_pct"; "AU"]%string = ret "Cu_pct"%string /\
  guess_col RoleGrade ["X"; "TENEUR"]%string = ret "TENEUR"%string /\
  lower "East_X9 (Zn)" = "east_x9 (zn)"%string.
Proof.
  split; [exact lower_char_code |]. split; [exact lower_length |].
  split; [exact lower_get |].
  split; [intros c; unfold matches; now rewrite lower_idempotent |].
  split; [| split; [| repeat split; reflexivity]].
  - intros c. unfold matches. rewrite existsb_exists. split.
    + intros [k [Hk Hin]]. apply str_in_spec in Hin.
      destruct Hin as [a [b H]]. exists k, a, b. split; [| exact H].
      destruct r; exact Hk.
    + intros [k [a [b [Hk H]]]]. exists k. split.
      * destruct r; exact Hk.
      * apply str_in_spec. now exists a, b.
  - intros Hne. destruct cols as [| first rest]; [contradiction |].
    unfold guess_col.
    destruct (next_spec (matches r) (first :: rest) first)
      as [[before [c [after [H1 [H2 [H3 H4]]]]]] | [H1 H2]].
    + exists c. rewrite H4. split; [reflexivity |]. left.
      now exists before, after.
    + exists first. rewrite H2. split; [reflexivity |]. right. now split.
Qed.

Lemma C3_guess_col_witness :
  ["ID"; "Easting"; "X"]%string <> [] /\
  guess_col RoleX ["ID"; "Easting"; "X"]%string = ret "Easting"%string /\
  exists before after,
    ["ID"; "Easting"; "X"]%string = before ++ "Easting"%string :: after /\
    matches RoleX "Easting" = true /\
    forall b, In b before -> matches RoleX b = false.
Proof.
  assert (H : ["ID"; "Easting"; "X"]%string <> []) by discriminate.
  split; [exact H |]. split; [reflexivity |].
  destruct (proj1 (proj2 (proj2 (proj2 (proj2 (proj2
              (C3_guess_col RoleX ["ID"; "Easting"; "X"]%string)))))) H)
    as [c [Hc Hcase]].
  assert (Ec : c = "Easting"%string).
  { assert (E : guess_col RoleX ["ID"; "Easting"; "X"]%string
                = ret "Easting"%string) by reflexivity.
    rewrite E in Hc. now injection Hc. }
  subst c. destruct Hcase as [Hfirst | [Hnone _]].
  - exact Hfirst.
  - exfalso. assert (Hm : matches RoleX "Easting" = false).
    { apply Hnone. right. left. reflexivity. }
    discriminate Hm.
Defined.

(** ** C7: the sampling step *)

Section Take.
Context {A : Type}.
Variable l : list A.

Lemma take_cons (i : nat) (pos : list nat) :
  (i < List.length l)%nat ->
  exists a, nth_error l i = Some a /\ take (i :: pos) l = a :: take pos l.
Proof.
  intros Hi. unfold take. simpl.
  destruct (nth_error l i) as [a |] eqn:E.
  - now exists a.
  - apply nth_error_Some in Hi. contradiction.
Qed.

Lemma take_length (pos : list nat) :
  in_range l pos -> List.length (take pos l) = List.length pos.
Proof.
  induction 1 as [| i pos Hi _ IH]; [reflexivity |].
  destruct (take_cons i pos Hi) as [a [_ ->]]. simpl. now rewrite IH.
Qed.

Lemma take_nth_error (pos : list nat) (j i : nat) :
  in_range l pos -> nth_error pos j = Some i ->
  nth_error (take pos l) j = nth_error l i.
Proof.
  intros Hr. revert j. induction Hr as [| k pos Hk _ IH]; intros j Hj.
  - destruct j; discriminate.
  - destruct (take_cons k pos Hk) as [a [Ha ->]].
    destruct j as [| j]; simpl in *.
    + injection Hj as <-. now rewrite Ha.
    + now apply IH.
Qed.

Lemma take_In (pos : list nat) (a : A) :
  In a (take pos l) -> exists i, In i pos /\ nth_error l i = Some a.
Proof.
  unfold take. rewrite in_flat_map. intros [i [Hi Ha]]. exists i.
  split; [assumption |].
  destruct (nth_error l i) as [b |]; [| contradiction].
  destruct Ha as [-> | []]. reflexivity.
Qed.

Lemma take_NoDup (pos : list nat) :
  NoDup l -> NoDup pos -> in_range l pos -> NoDup (take pos l).
Proof.
  intros Hl Hpos Hr. induction Hr as [| i pos Hi _ IH].
  - constructor.
  - destruct (take_cons i pos Hi) as [a [Ha ->]].
    inversion Hpos as [| ? ? Hnotin Hpos']; subst.
    constructor; [| now apply IH].
    intros Hin. apply take_In in Hin. destruct Hin as [i' [Hi' Ha']].
    assert (i = i').
    { apply (proj1 (NoDup_nth_error l) Hl); [assumption | congruence]. }
    subst i'. contradiction.
Qed.
End Take.

Lemma firstn_incl {A} (n : nat) (l : list A) (x : A) :
  In x (firstn n l) -> In x l.
Proof.
  intros H. rewrite <- (firstn_skipn n l). apply in_or_app. now left.
Qed.

Lemma firstn_NoDup {A} (n : nat) (l : list A) : NoDup l -> NoDup (firstn n l).
Proof.
  intros H. rewrite <- (firstn_skipn n l) in H.
  now apply NoDup_app_remove_r in H.
Qed.

(** The positions kept by [sample]: distinct, in range, [n] of them. *)
Lemma drawn_positions (perm : list nat) (n rows : nat) :
  Permutation perm (seq 0 rows) -> (n <= rows)%nat ->
  NoDup (firstn n perm) /\
  List.length (firstn n perm) = n /\
  Forall (fun i => (i < rows)%nat) (firstn n perm).
Proof.
  intros Hperm Hn. split; [| split].
  - apply firstn_NoDup.
    apply Permutation_NoDup with (l := seq 0 rows);
      [now apply Permutation_sym | apply seq_NoDup].
  - rewrite length_firstn, (Permutation_length Hperm), length_seq. lia.
  - apply Forall_forall. intros i Hi. apply firstn_incl in Hi.
    apply (Permutation_in _ Hperm) in Hi. apply in_seq in Hi. lia.
Qed.

(** C7. For every dataset and maximum sample size N, the sampling step
    returns the dataset itself when it has at most N rows; otherwise it
    returns exactly N rows with the same columns, each of them a row of
    the dataset, taken at N distinct positions and so with N distinct
    labels. *)
Theorem C7_sampling_step (cap : nat) (perm : list nat) (df : DataFrame) :
  well_formed df ->
  Permutation perm (seq 0 (len df)) ->
  ((len df <= cap)%nat -> df_sample cap perm df = df) /\
  ((cap < len df)%nat ->
   len (df_sample cap perm df) = cap /\
   columns (df_sample cap perm df) = columns df /\
   well_formed (df_sample cap perm df) /\
   exists pos,
     NoDup pos /\ List.length pos = cap /\
     forall j, (j < cap)%nat ->
       exists i, nth_error pos j = Some i /\ (i < len df)%nat /\
                 row (df_sample cap perm df) j = row df i /\
                 row df i <> None).
Proof.
  intros [Hlabels Hcols] Hperm. unfold df_sample. split.
  - intros Hle. rewrite Nat.min_r by assumption.
    now rewrite Nat.ltb_irrefl.
  - intros Hlt. rewrite Nat.min_l by lia.
    rewrite (proj2 (Nat.ltb_lt _ _) Hlt).
    destruct (drawn_positions perm cap (len df) Hperm) as [Hnd [Hlen Hr]];
      [lia |].
    set (pos := firstn cap perm) in *.
    assert (Hlen' : len (sample perm cap df) = cap).
    { unfold len, sample. simpl. fold pos.
      rewrite take_length; [exact Hlen | exact Hr]. }
    split; [exact Hlen' |]. split; [| split].
    + unfold columns, sample. simpl. rewrite map_map. reflexivity.
    + split.
      * unfold sample. simpl. fold pos. now apply take_NoDup.
      * rewrite Hlen'. unfold sample. simpl. fold pos.
        apply Forall_forall. intros c Hc. apply in_map_iff in Hc.
        destruct Hc as [[name cells] [<- Hc]]. simpl.
        rewrite Forall_forall in Hcols. specialize (Hcols _ Hc). simpl in Hcols.
        rewrite take_length; [exact Hlen |].
        unfold in_range. now rewrite Hcols.
    + exists pos. split; [exact Hnd |]. split; [exact Hlen |].
      intros j Hj.
      destruct (nth_error pos j) as [i |] eqn:Ei.
      2:{ apply nth_error_None in Ei. lia. }
      assert (Hi : (i < len df)%nat).
      { rewrite Forall_forall in Hr. apply Hr. now apply nth_error_In in Ei. }
      exists i. split; [reflexivity |]. split; [exact Hi |].
      unfold row, sample. simpl. fold pos.
      rewrite (take_nth_error (index df) pos j i Hr Ei).
      destruct (nth_error (index df) i) as [lbl |] eqn:El.
      2:{ apply nth_error_None in El. unfold len in Hi. lia. }
      split; [| discriminate]. f_equal. f_equal. rewrite map_map. simpl.
      apply map_ext_in. intros [name cells] Hc. simpl. f_equal.
      rewrite Forall_forall in Hcols. specialize (Hcols _ Hc). simpl in Hcols.
      apply take_nth_error; [| exact Ei].
      unfold in_range. now rewrite Hcols.
Qed.

Lemma C7_sampling_step_witness :
  well_formed df3 /\
  Permutation [2; 0; 1]%nat (seq 0 (len df3)) /\
  (2 < len df3)%nat /\
  len (df_sample 2 [2; 0; 1]%nat df3) = 2%nat /\
  row (df_sample 2 [2; 0; 1]%nat df3) 0 = row df3 2.
Proof.
  assert (Hwf : well_formed df3).
  { split.
    - repeat constructor; simpl; intuition discriminate.
    - repeat constructor. }
  assert (Hperm : Permutation [2; 0; 1]%nat (seq 0 (len df3))).
  { exact (Permutation_cons_append [0; 1]%nat 2%nat). }
  assert (Hlt : (2 < len df3)%nat) by (unfold len; simpl; lia).
  split; [exact Hwf |]. split; [exact Hperm |]. split; [exact Hlt |].
  split.
  - exact (proj1 (proj2 (C7_sampling_step 2 [2; 0; 1]%nat df3 Hwf Hperm) Hlt)).
  - reflexivity.
Defined.

(** ** Binary64 arithmetic *)

(** ** Digits *)












(** ** Rounding to the nearest integer, ties to even *)






(** ** Locations *)













(** ** Correct rounding *)




(** ** Values *)









(** ** Properties of the rounding *)












(** ** Values of the results *)



Lemma rounded_fin (s : bool) (v : Z) (r : spec_float) :
  rounded s v r -> v < big -> is_fin r = true.
Proof. intros [E | m e E Hlt Hb | Hge] H; simpl; auto. lia. Qed.






(** ** Sum, difference and quotient of binary64 values *)

Lemma okf_not_nan (f : float) : okf f -> is_nan f = false.
Proof. intros [_ H]. now destruct f. Qed.










Lemma pow2_split (a b : Z) : 0 <= a -> 0 <= b -> 2 ^ (a + b) = 2 ^ a * 2 ^ b.
Proof. intros. apply Z.pow_add_r; assumption. Qed.





(** ** Pairwise summation *)

Section PairwiseRel.

Variables A B : Type.
Variable plusA : A -> A -> A.
Variable plusB : B -> B -> B.
Variable zA : A.
Variable zB : B.
Variable R : A -> B -> Prop.
Hypothesis Hz : R zA zB.
Hypothesis Hplus :
  forall a b a' b', R a b -> R a' b' -> R (plusA a a') (plusB b b').









End PairwiseRel.

(** ** Sums of any binary64 values *)









(** ** Results that are not below zero *)













(** ** Counts *)







(** ** Quotients by a count *)



(** ** Order of binary64 values *)

Lemma leb_refl (a : float) : is_nan a = false -> leb a a = true.
Proof.
  destruct a as [[] | [] | | [] m e]; try reflexivity; try discriminate;
    intros _; unfold leb, SFleb, SFcompare;
    rewrite Z.compare_refl, Pos.compare_cont_refl; reflexivity.
Qed.

Lemma leb_total (a b : float) :
  is_nan a = false -> is_nan b = false -> leb a b = true \/ leb b a = true.
Proof.
  destruct a as [[] | [] | | [] m e]; destruct b as [[] | [] | | [] m' e'];
    try discriminate; intros _ _; try (left; reflexivity);
    try (right; reflexivity);
    unfold leb, SFleb, SFcompare;
    change (Pos.compare_cont Eq) with Pos.compare;
    destruct (Z.compare_spec e e'); destruct (Z.compare_spec e' e);
    try lia; auto;
    destruct (Pos.compare_spec m m'); destruct (Pos.compare_spec m' m);
    try lia; auto.
Qed.

Lemma leb_trans (a b c : float) :
  leb a b = true -> leb b c = true -> leb a c = true.
Proof.
  destruct a as [[] | [] | | [] m1 e1]; destruct b as [[] | [] | | [] m2 e2];
    destruct c as [[] | [] | | [] m3 e3];
    try reflexivity; try discriminate;
    unfold leb, SFleb, SFcompare;
    change (Pos.compare_cont Eq) with Pos.compare;
    destruct (Z.compare_spec e1 e2); try discriminate;
    destruct (Z.compare_spec e2 e3); try discriminate;
    destruct (Z.compare_spec e1 e3); try lia; try reflexivity;
    destruct (Pos.compare_spec m1 m2); try discriminate;
    destruct (Pos.compare_spec m2 m3); try discriminate;
    destruct (Pos.compare_spec m1 m3); try lia; try reflexivity;
    simpl; congruence.
Qed.

Lemma leb_not_nan (a b : float) :
  leb a b = true -> is_nan a = false /\ is_nan b = false.
Proof.
  destruct a as [[] | [] | | [] m e]; destruct b as [[] | [] | | [] m' e'];
    try discriminate; now split.
Qed.

(** ** Minimum, maximum and standard deviation *)

Lemma ltb_leb (a b : float) : ltb a b = true -> leb a b = true.
Proof.
  unfold ltb, leb, SFltb, SFleb.
  destruct (SFcompare a b) as [[] |]; try discriminate; reflexivity.
Qed.

Lemma ltb_false_leb (a b : float) :
  is_nan a = false -> is_nan b = false -> ltb a b = false -> leb b a = true.
Proof.
  destruct a as [[] | [] | | [] m e]; destruct b as [[] | [] | | [] m' e'];
    try discriminate; intros _ _; try reflexivity; try discriminate;
    unfold ltb, leb, SFltb, SFleb, SFcompare;
    change (Pos.compare_cont Eq) with Pos.compare;
    destruct (Z.compare_spec e e'); destruct (Z.compare_spec e' e);
    try lia; try reflexivity; try discriminate;
    destruct (Pos.compare_spec m m'); destruct (Pos.compare_spec m' m);
    try lia; try reflexivity; try discriminate.
Qed.

Lemma fold_min_bound (l : list float) :
  no_nan l -> forall acc, is_nan acc = false ->
  let r := fold_left (fun acc v => if ltb acc v || is_nan acc then acc else v)
                     l acc in
  leb r acc = true /\ Forall (fun x => leb r x = true) l.
Proof.
  induction 1 as [| x l Hx _ IH]; intros acc Hacc; simpl.
  - split; [now apply leb_refl | constructor].
  - rewrite Hacc, orb_false_r. destruct (ltb acc x) eqn:E.
    + destruct (IH acc Hacc) as [H1 H2]. split; [exact H1 |].
      constructor; [| exact H2].
      apply leb_trans with acc; [exact H1 | now apply ltb_leb].
    + destruct (IH x Hx) as [H1 H2].
      assert (Hxa : leb x acc = true) by now apply ltb_false_leb.
      split; [now apply leb_trans with x |].
      constructor; assumption.
Qed.

Lemma fold_max_bound (l : list float) :
  no_nan l -> forall acc, is_nan acc = false ->
  let r := fold_left (fun acc v => if ltb v acc || is_nan acc then acc else v)
                     l acc in
  leb acc r = true /\ Forall (fun x => leb x r = true) l.
Proof.
  induction 1 as [| x l Hx _ IH]; intros acc Hacc; simpl.
  - split; [now apply leb_refl | constructor].
  - rewrite Hacc, orb_false_r. destruct (ltb x acc) eqn:E.
    + destruct (IH acc Hacc) as [H1 H2]. split; [exact H1 |].
      constructor; [| exact H2].
      apply leb_trans with acc; [now apply ltb_leb | exact H1].
    + destruct (IH x Hx) as [H1 H2].
      assert (Hax : leb acc x = true) by now apply ltb_false_leb.
      split; [now apply leb_trans with x |].
      constructor; assumption.
Qed.

Lemma np_min_bound (l : list float) (x : float) :
  no_nan l -> In x l -> leb (Pandas.np_min l) x = true.
Proof.
  intros Hl Hin. destruct l as [| a l]; [contradiction |].
  inversion Hl as [| ? ? Ha Hl']; subst.
  destruct (fold_min_bound l Hl' a Ha) as [H1 H2]. simpl.
  destruct Hin as [<- | Hin]; [exact H1 |].
  rewrite Forall_forall in H2. now apply H2.
Qed.

Lemma np_max_bound (l : list float) (x : float) :
  no_nan l -> In x l -> leb x (Pandas.np_max l) = true.
Proof.
  intros Hl Hin. destruct l as [| a l]; [contradiction |].
  inversion Hl as [| ? ? Ha Hl']; subst.
  destruct (fold_max_bound l Hl' a Ha) as [H1 H2]. simpl.
  destruct Hin as [<- | Hin]; [exact H1 |].
  rewrite Forall_forall in H2. now apply H2.
Qed.

Lemma fillna_no_nan (v : float) (s : list float) :
  is_nan v = false -> no_nan (Pandas.fillna v s).
Proof.
  intros Hv. unfold no_nan, Pandas.fillna. apply Forall_forall.
  intros x Hx. apply in_map_iff in Hx. destruct Hx as [y [<- _]].
  destruct (is_nan y) eqn:E; assumption.
Qed.

Lemma fillna_keeps (v x : float) (s : list float) :
  In x s -> is_nan x = false -> In x (Pandas.fillna v s).
Proof.
  intros Hin Hx. unfold Pandas.fillna. apply in_map_iff. exists x.
  now rewrite Hx.
Qed.

(** A positive count means some value is present. *)
Lemma count_positive (s : list float) :
  (0 < Pandas.count s)%nat -> exists x, In x s /\ is_nan x = false.
Proof.
  unfold Pandas.count. intros H.
  destruct (filter (fun x => negb (is_nan x)) s) as [| x l] eqn:E;
    [simpl in H; lia |].
  assert (Hin : In x (filter (fun x => negb (is_nan x)) s))
    by (rewrite E; now left).
  apply filter_In in Hin. destruct Hin as [Hin Hx]. exists x.
  split; [assumption | now destruct (is_nan x)].
Qed.

(** Rounding keeps the sign it is given. *)
Lemma binary_round_aux_sign (s : bool) (m e : Z) (l : location) :
  let r := binary_round_aux prec emax s m e l in
  r = S754_nan \/ r = S754_zero s \/ r = S754_infinity s \/
  exists m' e', r = S754_finite s m' e'.
Proof.
  unfold binary_round_aux.
  destruct (shr_fexp prec emax m e l) as [mrs' e'].
  destruct (shr_fexp prec emax _ e' loc_Exact) as [mrs'' e''].
  destruct (shr_m mrs'') as [| p | p].
  - right. left. reflexivity.
  - destruct (e'' <=? emax - prec).
    + right. right. right. now exists p, e''.
    + right. right. left. reflexivity.
  - left. reflexivity.
Qed.

(** A square root is NaN or not below zero. *)
Lemma sqrt_sign (x : float) :
  is_nan (sqrt x) = true \/ leb zero (sqrt x) = true.
Proof.
  destruct x as [[] | [] | | [] m e]; try (now left); try (now right).
  unfold sqrt, SFsqrt.
  destruct (SFsqrt_core_binary prec emax (Zpos m) e) as [[mz ez] lz].
  destruct (binary_round_aux_sign false mz ez lz)
    as [-> | [-> | [-> | [m' [e' ->]]]]]; auto.
Qed.

Lemma div_nan_r (x : float) : div x nan = nan.
Proof. now destruct x. Qed.

Lemma fold_min_In (l : list float) (acc : float) :
  In (fold_left (fun acc v => if ltb acc v || is_nan acc then acc else v)
                l acc) (acc :: l).
Proof.
  revert acc. induction l as [| x l IH]; intros acc; simpl; [now left |].
  destruct (ltb acc x || is_nan acc).
  - destruct (IH acc) as [H | H]; [now left | right; now right].
  - right. exact (IH x).
Qed.

Lemma fold_max_In (l : list float) (acc : float) :
  In (fold_left (fun acc v => if ltb v acc || is_nan acc then acc else v)
                l acc) (acc :: l).
Proof.
  revert acc. induction l as [| x l IH]; intros acc; simpl; [now left |].
  destruct (ltb x acc || is_nan acc).
  - destruct (IH acc) as [H | H]; [now left | right; now right].
  - right. exact (IH x).
Qed.

Lemma fillna_In (v x : float) (s : list float) :
  In x (Pandas.fillna v s) -> present s x \/ x = v.
Proof.
  unfold Pandas.fillna, present. intros H. apply in_map_iff in H.
  destruct H as [y [Hy Hin]]. destruct (is_nan y) eqn:E.
  - right. now subst.
  - left. subst. now split.
Qed.

Lemma leb_pinf_l (x : float) : leb pinf x = true -> x = pinf.
Proof. destruct x as [[] | [] | | [] m e]; try discriminate; reflexivity. Qed.

Lemma leb_ninf_r (x : float) : leb x ninf = true -> x = ninf.
Proof. destruct x as [[] | [] | | [] m e]; try discriminate; reflexivity. Qed.

(** With at most one value the sample standard deviation is NaN. *)
Lemma std_single (s : list float) :
  (Pandas.count s <= 1)%nat -> float_of (Pandas.std s) = nan.
Proof.
  intros H. unfold Pandas.std, Pandas.var. destruct s as [| a s]; [reflexivity |].
  rewrite (proj2 (Nat.leb_le _ _) H). cbn [float_of]. now rewrite div_nan_r.
Qed.

Lemma count_nil_or (s : list float) :
  (1 <= Pandas.count s)%nat -> exists a l, s = a :: l.
Proof.
  destruct s as [| a l]; [intros H; cbv in H; lia | eauto].
Qed.

Lemma min_present (s : list float) :
  (1 <= Pandas.count s)%nat ->
  Pandas.min s = NpFloat64 (Pandas.np_min (Pandas.fillna pinf s)).
Proof.
  intros H. destruct (count_nil_or s H) as [a [l ->]]. unfold Pandas.min.
  destruct (Pandas.count (a :: l) =? 0)%nat eqn:E;
    [apply Nat.eqb_eq in E; lia | reflexivity].
Qed.

Lemma max_present (s : list float) :
  (1 <= Pandas.count s)%nat ->
  Pandas.max s = NpFloat64 (Pandas.np_max (Pandas.fillna ninf s)).
Proof.
  intros H. destruct (count_nil_or s H) as [a [l ->]]. unfold Pandas.max.
  destruct (Pandas.count (a :: l) =? 0)%nat eqn:E;
    [apply Nat.eqb_eq in E; lia | reflexivity].
Qed.


(** With a value present, the minimum and the maximum are present values
    and bound every present value. *)
Lemma extremes_present (s : list float) :
  (1 <= Pandas.count s)%nat ->
  present s (Pandas.np_min (Pandas.fillna pinf s)) /\
  present s (Pandas.np_max (Pandas.fillna ninf s)) /\
  forall v, present s v ->
            leb (Pandas.np_min (Pandas.fillna pinf s)) v = true /\
            leb v (Pandas.np_max (Pandas.fillna ninf s)) = true.
Proof.
  intros Hcount.
  assert (Hlow : forall v, present s v ->
                   leb (Pandas.np_min (Pandas.fillna pinf s)) v = true).
  { intros v [Hin Hv].
    apply np_min_bound; [now apply fillna_no_nan | now apply fillna_keeps]. }
  assert (Hhigh : forall v, present s v ->
                    leb v (Pandas.np_max (Pandas.fillna ninf s)) = true).
  { intros v [Hin Hv].
    apply np_max_bound; [now apply fillna_no_nan | now apply fillna_keeps]. }
  destruct (count_positive s) as [x [Hin Hx]]; [lia |].
  assert (Hpx : present s x) by now split.
  split; [| split].
  - assert (H : In (Pandas.np_min (Pandas.fillna pinf s)) (Pandas.fillna pinf s)).
    { unfold Pandas.np_min.
      destruct (Pandas.fillna pinf s) as [| a l] eqn:El.
      - destruct s; [contradiction | discriminate El].
      - apply fold_min_In. }
    apply fillna_In in H. destruct H as [H | H]; [exact H |].
    specialize (Hlow x Hpx). rewrite H in Hlow.
    apply leb_pinf_l in Hlow. rewrite H, <- Hlow. exact Hpx.
  - assert (H : In (Pandas.np_max (Pandas.fillna ninf s)) (Pandas.fillna ninf s)).
    { unfold Pandas.np_max.
      destruct (Pandas.fillna ninf s) as [| a l] eqn:El.
      - destruct s; [contradiction | discriminate El].
      - apply fold_max_In. }
    apply fillna_In in H. destruct H as [H | H]; [exact H |].
    specialize (Hhigh x Hpx). rewrite H in Hhigh.
    apply leb_ninf_r in Hhigh. rewrite H, <- Hhigh. exact Hpx.
  - intros v Hv. split; [now apply Hlow | now apply Hhigh].
Qed.

(** ** The mean between the extremes *)












(** ** The depth of the pairwise summation *)

(** The splitting of [pairwise_sum] ends before the fuel does: with
    [113 * 2 ^ f + 15] values or fewer, any fuel from [f] on gives the
    same sum. *)
Lemma pairwise_sum_fuel {A} (plus : A -> A -> A) (z : A) (f : nat) :
  forall (s : list A) (f' : nat),
    (List.length s <= 113 * 2 ^ f + 15)%nat -> (f <= f')%nat ->
    pairwise_sum plus z f' s = pairwise_sum plus z f s.
Proof.
  induction f as [| f IH]; intros s f' Hlen Hf.
  - simpl in Hlen. destruct f' as [| f']; [reflexivity |].
    cbn [pairwise_sum].
    destruct (List.length s <? 8)%nat; [reflexivity |].
    destruct (Nat.leb_spec (List.length s) 128); [reflexivity | lia].
  - destruct f' as [| f']; [lia |]. cbn [pairwise_sum].
    destruct (List.length s <? 8)%nat; [reflexivity |].
    destruct (Nat.leb_spec (List.length s) 128); [reflexivity |].
    rewrite Nat.pow_succ_r' in Hlen.
    set (n := List.length s) in *.
    set (n2 := (n / 2 - (n / 2) mod 8)%nat).
    assert (H2 : (n2 <= n / 2)%nat) by (unfold n2; lia).
    assert (Hdiv : (2 * (n / 2) <= n < 2 * (n / 2) + 2)%nat).
    { pose proof (Nat.div_mod_eq n 2).
      pose proof (Nat.mod_upper_bound n 2 ltac:(lia)). lia. }
    assert (Hmod : ((n / 2) mod 8 < 8)%nat)
      by (apply Nat.mod_upper_bound; lia).
    f_equal; apply IH; try lia.
    + rewrite length_firstn. fold n. lia.
    + rewrite length_skipn. fold n. unfold n2. lia.
Qed.

(** The length of the series is enough fuel. *)
Lemma np_sum_fuel (s : list float) (f : nat) :
  (List.length s <= f)%nat ->
  Pandas.np_sum s = add zero (pairwise_sum add zero f s).
Proof.
  intros H. unfold Pandas.np_sum. f_equal.
  assert (Hpow : (List.length s < 2 ^ List.length s)%nat)
    by (apply Nat.pow_gt_lin_r; lia).
  rewrite (pairwise_sum_fuel add zero (List.length s) s f); [reflexivity | | lia].
  lia.
Qed.

(** ** The sign of the mean and of the standard deviation *)










(** ** A single value *)












(** ** C6: bounds on the grade statistics *)




(** ** C5: the percentage differences *)

Lemma field_computed (m : metric) (g : string) (grade : list float) :
  convertible (field m (computed g grade)) /\
  safe_divisor (field m (computed g grade)).
Proof.
  unfold convertible, safe_divisor, computed.
  destruct m; cbn [field volume tonnage densite teneur_moyenne teneur_min
                   teneur_max ecart_type metal_contenu recuperation
                   metal_recuperable].
  - destruct (str_in "composite" g); split; (reflexivity || (right; reflexivity)).
  - destruct (str_in "composite" g); split; (reflexivity || (right; reflexivity)).
  - split; (reflexivity || (right; reflexivity)).
  - destruct (mean_cases grade) as [[x ->] | ->]; split;
      (reflexivity || (left; reflexivity) || (right; reflexivity)).
  - unfold Pandas.min.
    destruct grade; [| destruct (Pandas.count _ =? 0)%nat]; split;
      (reflexivity || (left; reflexivity) || (right; reflexivity)).
  - unfold Pandas.max.
    destruct grade; [| destruct (Pandas.count _ =? 0)%nat]; split;
      (reflexivity || (left; reflexivity) || (right; reflexivity)).
  - unfold Pandas.std. destruct grade; split;
      (reflexivity || (left; reflexivity) || (right; reflexivity)).
  - destruct (mean_cases grade) as [[x ->] | ->];
      destruct (str_in "composite" g); split;
      (reflexivity || (left; reflexivity) || (right; reflexivity)).
  - destruct (str_in "composite" g); split; (reflexivity || (right; reflexivity)).
  - destruct (mean_cases grade) as [[x ->] | ->];
      destruct (str_in "composite" g); split;
      (reflexivity || (left; reflexivity) || (right; reflexivity)).
Qed.

Lemma pct_diff_value (a b : pyval) :
  convertible a -> convertible b -> safe_divisor a ->
  exists v,
    pct_diff a b = ret v /\ float_of v = pct (float_of a) (float_of b) /\
    convertible v.
Proof.
  unfold safe_divisor, pct_diff, py_truediv, pct.
  intros Ha Hb Hsafe. unfold convertible in Ha, Hb. rewrite Ha, Hb.
  cbn [bind ret].
  destruct (is_np b || is_np a) eqn:E.
  - eexists. repeat split; reflexivity.
  - apply orb_false_iff in E. destruct E as [_ E].
    destruct Hsafe as [Hnp | Hz]; [congruence |].
    rewrite Hz. eexists. repeat split; reflexivity.
Qed.

Lemma pct_nan (a b : float) : is_nan a = true -> pct a b = nan.
Proof.
  destruct a; try discriminate. intros _. now destruct b.
Qed.

Lemma pct_zero (a b : float) :
  is_zero a = true ->
  if is_nan b || is_zero b then pct a b = nan
  else is_inf (pct a b) = true.
Proof.
  destruct a as [sa | | |]; try discriminate. intros _.
  destruct b as [[] | [] | | [] m e]; destruct sa; reflexivity.
Qed.

(** C5, as stated, fails where the first field is zero and the second
    is a non-zero number: a grade column of zeros has the mean 0.0, and
    the difference of the means against the column 1.0, 2.0, 3.0 is
    [(2.0 / 0.0 - 1) * 100], which is infinite, not NaN. *)
Lemma C5_counterexample :
  exists cs bs,
    snd (calculate_statistics (Some df_zero) "AU") = ret (Some cs) /\
    snd (calculate_statistics (Some df_au) "AU_GPT") = ret (Some bs) /\
    teneur_moyenne cs = NpFloat64 zero /\
    teneur_moyenne bs = NpFloat64 (lit 20 1) /\
    teneur_diff cs bs = ret (NpFloat64 pinf) /\
    is_nan pinf = false.
Proof.
  do 2 eexists. split; [vm_compute; reflexivity |].
  split; [vm_compute; reflexivity |].
  repeat split; vm_compute; reflexivity.
Qed.

(** C5, amended. For every two records computed by
    [calculate_statistics] and every field, the difference is computed
    without raising and is [(second / first - 1) * 100] in binary64
    arithmetic.  It is NaN when the first field is NaN.  When the first
    field is zero it is NaN only if the second field is zero or NaN,
    and infinite otherwise. *)
Theorem C5_differences (d1 d2 : DataFrame) (g1 g2 : string) :
  In g1 (columns d1) -> In g2 (columns d2) ->
  exists cs bs,
    snd (calculate_statistics (Some d1) g1) = ret (Some cs) /\
    snd (calculate_statistics (Some d2) g2) = ret (Some bs) /\
    forall m, exists v,
      diff m cs bs = ret v /\
      float_of v =
        mul (sub (div (float_of (field m bs)) (float_of (field m cs)))
                 (of_Z 1)) (of_Z 100) /\
      (is_nan (float_of (field m cs)) = true -> float_of v = nan) /\
      (is_zero (float_of (field m cs)) = true ->
       if is_nan (float_of (field m bs)) || is_zero (float_of (field m bs))
       then float_of v = nan
       else is_inf (float_of v) = true).
Proof.
  intros H1 H2.
  destruct (calculate_statistics_present d1 g1 H1) as [c1 [_ E1]].
  destruct (calculate_statistics_present d2 g2 H2) as [c2 [_ E2]].
  rewrite E1, E2. do 2 eexists. split; [reflexivity |].
  split; [reflexivity |]. intros m. unfold diff.
  destruct (field_computed m g1 (Pandas.to_numeric c1)) as [Ha Hsafe].
  destruct (field_computed m g2 (Pandas.to_numeric c2)) as [Hb _].
  destruct (pct_diff_value _ _ Ha Hb Hsafe) as [v [Hv [Hf _]]].
  exists v. split; [exact Hv |]. split; [exact Hf |].
  rewrite Hf. split.
  - apply pct_nan.
  - apply pct_zero.
Qed.

Lemma C5_differences_witness :
  exists cs bs,
    snd (calculate_statistics (Some df_zero) "AU") = ret (Some cs) /\
    snd (calculate_statistics (Some df_au) "AU_GPT") = ret (Some bs) /\
    forall m, exists v,
      diff m cs bs = ret v /\
      float_of v =
        mul (sub (div (float_of (field m bs)) (float_of (field m cs)))
                 (of_Z 1)) (of_Z 100) /\
      (is_nan (float_of (field m cs)) = true -> float_of v = nan) /\
      (is_zero (float_of (field m cs)) = true ->
       if is_nan (float_of (field m bs)) || is_zero (float_of (field m bs))
       then float_of v = nan
       else is_inf (float_of v) = true).
Proof.
  apply (C5_differences df_zero df_au "AU" "AU_GPT").
  - simpl. left. reflexivity.
  - simpl. left. reflexivity.
Defined.

(** ** C8: the CSV report *)

Lemma all_chars_app (p : ascii -> bool) (a b : string) :
  all_chars p (a ++ b) = all_chars p a && all_chars p b.
Proof.
  induction a as [| c a IH]; simpl; [reflexivity |].
  now rewrite IH, andb_assoc.
Qed.

Lemma append_assoc (a b c : string) :
  ((a ++ b) ++ c = a ++ (b ++ c))%string.
Proof.
  induction a as [| x a IH]; simpl; [reflexivity | now rewrite IH].
Qed.

Lemma numeric_uint (u : Decimal.uint) :
  all_chars numeric_char (NilEmpty.string_of_uint u) = true.
Proof. induction u; simpl; auto. Qed.

Lemma numeric_int_digits (n : Z) : all_chars numeric_char (int_digits n) = true.
Proof.
  unfold int_digits, NilZero.string_of_uint.
  destruct (N.to_uint (Z.to_N n)) eqn:E; try reflexivity;
    rewrite <- E; apply numeric_uint.
Qed.

Lemma numeric_digit (k : Z) : 0 <= k < 10 -> numeric_char (digit k) = true.
Proof.
  intros H.
  assert (Hk : k = 0 \/ k = 1 \/ k = 2 \/ k = 3 \/ k = 4 \/
               k = 5 \/ k = 6 \/ k = 7 \/ k = 8 \/ k = 9) by lia.
  repeat (destruct Hk as [-> | Hk]; [reflexivity |]). now subst.
Qed.

Lemma numeric_frac_digits (d : nat) (n : Z) :
  all_chars numeric_char (frac_digits d n) = true.
Proof.
  revert n. induction d as [| d IH]; intros n; cbn [frac_digits];
    [reflexivity |].
  rewrite all_chars_app, IH. cbn [all_chars andb].
  rewrite numeric_digit; [reflexivity |].
  apply Z.mod_pos_bound. lia.
Qed.

Lemma numeric_fixed (d : nat) (n : Z) : all_chars numeric_char (fixed d n) = true.
Proof.
  unfold fixed. rewrite !all_chars_app, numeric_int_digits, numeric_frac_digits.
  reflexivity.
Qed.

(** A formatted float has no separator in it. *)
Lemma numeric_format_f (d : nat) (f : float) : numeric (format_f d f).
Proof.
  unfold numeric.
  destruct f as [[] | [] | | [] m e]; unfold format_f, sign;
    rewrite ?all_chars_app, ?numeric_fixed; reflexivity.
Qed.

Lemma bind_ret {A B} (a : A) (k : A -> result B) : bind (ret a) k = k a.
Proof. reflexivity. Qed.

Lemma mapM_Forall2 {A B} (f : A -> result B) (P : A -> B -> Prop) (l : list A) :
  (forall a, In a l -> exists b, f a = ret b /\ P a b) ->
  exists bs, mapM f l = ret bs /\ Forall2 P l bs.
Proof.
  induction l as [| a l IH]; intros H; simpl.
  - exists []. split; [reflexivity | constructor].
  - destruct (H a (or_introl eq_refl)) as [b [Hb HP]].
    destruct IH as [bs [Hbs HF]].
    { intros x Hx. apply H. now right. }
    exists (b :: bs). rewrite Hb, Hbs. split; [reflexivity |].
    now constructor.
Qed.

Lemma py_format_convertible (d : nat) (v : pyval) :
  convertible v -> py_format d v = ret (format_f d (float_of v)).
Proof. unfold convertible, py_format. now intros ->. Qed.

Lemma report_rows (cs bs : stats) :
  (forall m, convertible (field m cs)) ->
  (forall m, convertible (field m bs)) ->
  forall (l : list metric) (ds : list pyval),
    Forall2 (fun _ d => convertible d) l ds ->
    exists rows,
      mapM (report_row cs bs) (combine l ds) =
        ret (map (fun r => (r ++ newline)%string) rows) /\
      Forall2 row_shape l rows.
Proof.
  intros Hc Hb l ds HF. induction HF as [| m d l ds Hd _ [rows [Hr HS]]].
  - exists []. split; [reflexivity | constructor].
  - exists ((label m ++ "," ++ format_f (decimals m) (float_of (field m cs))
             ++ "," ++ format_f (decimals m) (float_of (field m bs))
             ++ "," ++ format_f 1 (float_of d))%string :: rows).
    split.
    + simpl. rewrite !py_format_convertible by auto. cbn [bind ret].
      rewrite Hr. cbn [bind ret map]. do 2 f_equal.
      repeat (rewrite append_assoc; cbn [append]). reflexivity.
    + constructor; [| exact HS].
      do 3 eexists. split; [reflexivity |].
      repeat split; apply numeric_format_f.
Qed.

(** C8, as stated, fails on the text of the header: the report written
    for the example record does not start with the English header of the
    claim; it starts with the French one. *)
Lemma C8_counterexample :
  exists cs text,
    snd (calculate_statistics (Some df_au) "AU_GPT") = ret (Some cs) /\
    csv_buffer cs cs = ret text /\
    String.prefix "Metric,Composite 3D,Block Model,Difference (%)" text
      = false /\
    String.prefix "Métrique,Composite 3D,Bloc Modèle,Différence (%)" text
      = true.
Proof.
  do 2 eexists. split; [vm_compute; reflexivity |].
  split; [vm_compute; reflexivity |].
  split; vm_compute; reflexivity.
Qed.

Lemma all_chars_impl (p q : ascii -> bool) (s : string) :
  (forall c, p c = true -> q c = true) ->
  all_chars p s = true -> all_chars q s = true.
Proof.
  intros Hpq. induction s as [| c s IH]; simpl; [reflexivity |].
  intros H. apply andb_true_iff in H. destruct H as [Hc Hs].
  now rewrite (Hpq c Hc), (IH Hs).
Qed.

Lemma numeric_char_plain (c : ascii) : numeric_char c = true -> plain c = true.
Proof.
  unfold numeric_char. rewrite existsb_exists. intros [k [Hin Hk]].
  apply Ascii.eqb_eq in Hk. subst k.
  repeat (destruct Hin as [<- | Hin]; [reflexivity |]). contradiction.
Qed.

Lemma numeric_plain (s : string) : numeric s -> all_chars plain s = true.
Proof. apply all_chars_impl, numeric_char_plain. Qed.

Lemma digit_is_digit (k : Z) : 0 <= k < 10 -> is_digit (digit k) = true.
Proof.
  intros H.
  assert (Hk : k = 0 \/ k = 1 \/ k = 2 \/ k = 3 \/ k = 4 \/
               k = 5 \/ k = 6 \/ k = 7 \/ k = 8 \/ k = 9) by lia.
  repeat (destruct Hk as [-> | Hk]; [reflexivity |]). now subst.
Qed.

Lemma append_length (a b : string) :
  String.length (a ++ b) = (String.length a + String.length b)%nat.
Proof. induction a as [| c a IH]; simpl; [reflexivity | now rewrite IH]. Qed.

Lemma frac_digits_shape (d : nat) (n : Z) :
  all_chars is_digit (frac_digits d n) = true /\
  String.length (frac_digits d n) = d.
Proof.
  revert n. induction d as [| d IH]; intros n; cbn [frac_digits];
    [now split |].
  destruct (IH (n / 10)) as [H1 H2]. split.
  - rewrite all_chars_app, H1. cbn [all_chars andb].
    rewrite digit_is_digit; [reflexivity |]. apply Z.mod_pos_bound. lia.
  - rewrite append_length, H2. simpl. lia.
Qed.

Lemma int_digits_shape (n : Z) :
  all_chars is_digit (int_digits n) = true /\ int_digits n <> EmptyString.
Proof.
  unfold int_digits, NilZero.string_of_uint.
  assert (H : forall u, all_chars is_digit (NilEmpty.string_of_uint u) = true)
    by (induction u; simpl; auto).
  destruct (N.to_uint (Z.to_N n)) eqn:E;
    (split; [try reflexivity; rewrite <- E; apply H | discriminate]).
Qed.

(** The text of a number that is neither NaN nor infinite: an optional
    minus sign, at least one digit, the point, and exactly [d] digits. *)
Lemma format_f_shape (d : nat) (f : float) :
  is_nan f = false -> is_inf f = false ->
  exists (neg : bool) ip fp,
    format_f d f = ((if neg then "-" else "") ++ ip ++ "." ++ fp)%string /\
    ip <> EmptyString /\ all_chars is_digit ip = true /\
    all_chars is_digit fp = true /\ String.length fp = d.
Proof.
  destruct f as [s | s | | s m e]; try discriminate; intros _ _;
    unfold format_f, fixed, sign.
  - exists s, (int_digits (0 / 10 ^ Z.of_nat d)), (frac_digits d 0).
    destruct (int_digits_shape (0 / 10 ^ Z.of_nat d)) as [H1 H2].
    destruct (frac_digits_shape d 0) as [H3 H4]. now repeat split.
  - exists s, (int_digits (scaled d m e / 10 ^ Z.of_nat d)),
      (frac_digits d (scaled d m e)).
    destruct (int_digits_shape (scaled d m e / 10 ^ Z.of_nat d)) as [H1 H2].
    destruct (frac_digits_shape d (scaled d m e)) as [H3 H4].
    now repeat split.
Qed.

(** The rows written for the differences [ds]. *)
Lemma report_rows_exact (cs bs : stats) :
  (forall m, convertible (field m cs)) ->
  (forall m, convertible (field m bs)) ->
  forall (l : list metric) (ds : list pyval),
    Forall2 (fun m d =>
               convertible d /\
               float_of d = pct (float_of (field m cs)) (float_of (field m bs)))
            l ds ->
    mapM (report_row cs bs) (combine l ds) = ret (map (report_line cs bs) l).
Proof.
  intros Hc Hb l ds HF. induction HF as [| m d l ds [Hd Hv] _ IH].
  - reflexivity.
  - simpl. rewrite !py_format_convertible by auto. cbn [bind ret].
    rewrite IH. cbn [bind ret map]. do 2 f_equal.
    unfold report_line. rewrite Hv.
    repeat (rewrite append_assoc; cbn [append]). reflexivity.
Qed.

(** C8, amended. For every two records computed by
    [calculate_statistics], the report is produced and is the header line
    [Métrique,Composite 3D,Bloc Modèle,Différence (%)] followed by exactly
    ten lines, one per metric in the order volume, tonnage, density, mean,
    minimum, maximum, standard deviation, contained metal, recovery,
    recoverable metal.  Each line is the French label of the metric, the
    value of the first record, the value of the second record and their
    difference [(second / first - 1) * 100], separated by commas: the
    two values with one decimal (two for density, the three grades and
    the standard deviation), the difference with one decimal.  A
    formatted number is "nan", "inf" or "-inf", or else an optional minus
    sign, digits, a point and exactly that many decimals; neither a
    number nor a label holds a comma or a line break.  The three reports
    below are those of the example datasets. *)
Theorem C8_report (d1 d2 : DataFrame) (g1 g2 : string) :
  (In g1 (columns d1) -> In g2 (columns d2) ->
   exists cs bs text,
     snd (calculate_statistics (Some d1) g1) = ret (Some cs) /\
     snd (calculate_statistics (Some d2) g2) = ret (Some bs) /\
     csv_buffer cs bs = ret text /\
     text = ("Métrique,Composite 3D,Bloc Modèle,Différence (%)" ++ newline ++
             String.concat ""
               (map (fun m =>
                       label m ++ "," ++
                       format_f (decimals m) (float_of (field m cs)) ++ "," ++
                       format_f (decimals m) (float_of (field m bs)) ++ "," ++
                       format_f 1
                         (mul (sub (div (float_of (field m bs))
                                        (float_of (field m cs)))
                                   (of_Z 1)) (of_Z 100)) ++
                       newline)
                    [Volume; Tonnage; Densite; TeneurMoyenne; TeneurMin;
                     TeneurMax; EcartType; MetalContenu; Recuperation;
                     MetalRecuperable]))%string) /\
  map label
    [Volume; Tonnage; Densite; TeneurMoyenne; TeneurMin; TeneurMax;
     EcartType; MetalContenu; Recuperation; MetalRecuperable] =
    ["Volume total (m³)"; "Tonnage estimé (tonnes)";
     "Densité moyenne (t/m³)"; "Teneur moyenne (g/t)";
     "Teneur minimum (g/t)"; "Teneur maximum (g/t)"; "Écart-type (g/t)";
     "Métal contenu (kg)"; "Récupération estimée (%)";
     "Métal récupérable (kg)"]%string /\
  map decimals
    [Volume; Tonnage; Densite; TeneurMoyenne; TeneurMin; TeneurMax;
     EcartType; MetalContenu; Recuperation; MetalRecuperable] =
    [1; 1; 2; 2; 2; 2; 2; 1; 1; 1]%nat /\
  (forall m, all_chars plain (label m) = true) /\
  (forall d f, all_chars plain (format_f d f) = true) /\
  (forall d, format_f d nan = "nan"%string /\
             format_f d pinf = "inf"%string /\
             format_f d ninf = "-inf"%string) /\
  (forall d f, is_nan f = false -> is_inf f = false ->
     exists (neg : bool) ip fp,
       format_f d f = ((if neg then "-" else "") ++ ip ++ "." ++ fp)%string /\
       ip <> EmptyString /\ all_chars is_digit ip = true /\
       all_chars is_digit fp = true /\ String.length fp = d) /\
  (format_f 1 (lit 25 2) = "0.2" /\ format_f 1 (lit 35 2) = "0.3" /\
   format_f 2 (lit 1005 3) = "1.00" /\ format_f 2 (lit (-1) 3) = "-0.00" /\
   format_f 1 (of_Z 1250000) = "1250000.0" /\
   format_f 2 (lit 27 1) = "2.70" /\
   format_f 1 (lit 626535 2) = "6265.4")%string /\
  (exists cs bs,
     snd (calculate_statistics (Some df_mixed) "composite_g") = ret (Some cs) /\
     snd (calculate_statistics (Some df_au) "AU_GPT") = ret (Some bs) /\
     csv_buffer cs bs = ret
"Métrique,Composite 3D,Bloc Modèle,Différence (%)
Volume total (m³),1250000.0,1275000.0,2.0
Tonnage estimé (tonnes),3375000.0,3442500.0,2.0
Densité moyenne (t/m³),2.70,2.70,0.0
Teneur moyenne (g/t),-0.42,2.00,-580.0
Teneur minimum (g/t),-3.00,1.00,-133.3
Teneur maximum (g/t),1.50,3.00,100.0
Écart-type (g/t),2.32,1.00,-57.0
Métal contenu (kg),-1406.2,6885.0,-589.6
Récupération estimée (%),92.5,91.0,-1.6
Métal récupérable (kg),-1300.8,6265.4,-581.7
"%string) /\
  (exists cs bs,
     snd (calculate_statistics (Some df_zero) "AU") = ret (Some cs) /\
     snd (calculate_statistics (Some df_au) "AU_GPT") = ret (Some bs) /\
     csv_buffer cs bs = ret
"Métrique,Composite 3D,Bloc Modèle,Différence (%)
Volume total (m³),1275000.0,1275000.0,0.0
Tonnage estimé (tonnes),3442500.0,3442500.0,0.0
Densité moyenne (t/m³),2.70,2.70,0.0
Teneur moyenne (g/t),0.00,2.00,inf
Teneur minimum (g/t),0.00,1.00,inf
Teneur maximum (g/t),0.00,3.00,inf
Écart-type (g/t),0.00,1.00,inf
Métal contenu (kg),0.0,6885.0,inf
Récupération estimée (%),91.0,91.0,0.0
Métal récupérable (kg),0.0,6265.4,inf
"%string) /\
  (exists cs bs,
     snd (calculate_statistics (Some df_two) "ID") = ret (Some cs) /\
     snd (calculate_statistics (Some df_one) "AU") = ret (Some bs) /\
     csv_buffer cs bs = ret
"Métrique,Composite 3D,Bloc Modèle,Différence (%)
Volume total (m³),1275000.0,1275000.0,0.0
Tonnage estimé (tonnes),3442500.0,3442500.0,0.0
Densité moyenne (t/m³),2.70,2.70,0.0
Teneur moyenne (g/t),nan,5.00,nan
Teneur minimum (g/t),nan,5.00,nan
Teneur maximum (g/t),nan,5.00,nan
Écart-type (g/t),nan,nan,nan
Métal contenu (kg),nan,17212.5,nan
Récupération estimée (%),91.0,91.0,0.0
Métal récupérable (kg),nan,15663.4,nan
"%string).
Proof.
  split.
  { intros H1 H2.
    destruct (calculate_statistics_present d1 g1 H1) as [c1 [_ E1]].
    destruct (calculate_statistics_present d2 g2 H2) as [c2 [_ E2]].
    rewrite E1, E2.
    set (cs := computed g1 (Pandas.to_numeric c1)).
    set (bs := computed g2 (Pandas.to_numeric c2)).
    assert (Hc : forall m, convertible (field m cs))
      by (intros m; apply field_computed).
    assert (Hb : forall m, convertible (field m bs))
      by (intros m; apply field_computed).
    destruct (mapM_Forall2 (fun m => diff m cs bs)
                (fun m d =>
                   convertible d /\
                   float_of d =
                     pct (float_of (field m cs)) (float_of (field m bs)))
                all_metrics) as [ds [Hds HF]].
    { intros m _. unfold diff.
      destruct (pct_diff_value (field m cs) (field m bs))
        as [v [Hv [Hval Hconv]]];
        [apply Hc | apply Hb | apply field_computed |].
      exists v. now repeat split. }
    pose proof (report_rows_exact cs bs Hc Hb all_metrics ds HF) as Hrows.
    exists cs, bs. eexists.
    split; [reflexivity |]. split; [reflexivity |].
    split; [unfold csv_buffer; rewrite Hds, bind_ret; cbv beta;
            rewrite Hrows, bind_ret; reflexivity |].
    reflexivity. }
  split; [reflexivity |]. split; [reflexivity |].
  split; [intros m; now destruct m |].
  split; [intros d f; apply numeric_plain, numeric_format_f |].
  split; [intros d; repeat split; reflexivity |].
  split; [exact format_f_shape |].
  split; [repeat split; vm_compute; reflexivity |].
  repeat split; do 2 eexists; (split; [vm_compute; reflexivity |]);
    (split; [vm_compute; reflexivity |]); vm_compute; reflexivity.
Qed.

Lemma C8_report_witness :
  exists cs bs text,
    snd (calculate_statistics (Some df_zero) "AU") = ret (Some cs) /\
    snd (calculate_statistics (Some df_au) "AU_GPT") = ret (Some bs) /\
    csv_buffer cs bs = ret text /\
    text = ("Métrique,Composite 3D,Bloc Modèle,Différence (%)" ++ newline ++
            String.concat ""
              (map (fun m =>
                      label m ++ "," ++
                      format_f (decimals m) (float_of (field m cs)) ++ "," ++
                      format_f (decimals m) (float_of (field m bs)) ++ "," ++
                      format_f 1
                        (mul (sub (div (float_of (field m bs))
                                       (float_of (field m cs)))
                                  (of_Z 1)) (of_Z 100)) ++
                      newline)
                   [Volume; Tonnage; Densite; TeneurMoyenne; TeneurMin;
                    TeneurMax; EcartType; MetalContenu; Recuperation;
                    MetalRecuperable]))%string.
Proof.
  apply (proj1 (C8_report df_zero df_au "AU" "AU_GPT")).
  - simpl. left. reflexivity.
  - simpl. left. reflexivity.
Defined.

(** * Further properties of the code *)

(** ** The column guesses and the select boxes *)

Lemma next_In (p : string -> bool) (cols : list string) (default : string) :
  In default cols -> In (next p cols default) cols.
Proof.
  intros Hd.
  destruct (next_spec p cols default)
    as [[before [c [after [H1 [_ [_ H4]]]]]] | [_ H2]].
  - rewrite H4, H1. apply in_or_app. right. now left.
  - now rewrite H2.
Qed.

Lemma index_of_In (c : string) (cols : list string) :
  In c cols ->
  exists i, index_of c cols = Some i /\ nth_error cols i = Some c /\
            forall j, (j < i)%nat -> nth_error cols j <> Some c.
Proof.
  induction cols as [| a cols IH]; [intros [] |].
  intros Hin. simpl. destruct (String.eqb a c) eqn:E.
  - apply String.eqb_eq in E. subst a. exists 0%nat.
    repeat split. intros j Hj. lia.
  - assert (Hne : a <> c) by (intros ->; now rewrite String.eqb_refl in E).
    destruct Hin as [Heq | Hin]; [contradiction |].
    destruct (IH Hin) as [i [H1 [H2 H3]]]. exists (S i). rewrite H1.
    repeat split; [exact H2 |].
    intros [| j] Hj; simpl; [congruence | apply H3; lia].
Qed.

(** X1. The guess for a role raises [IndexError] on an empty column
    list; on any other list it is one of the columns, so the
    [columns.index(guess)] that preselects it in the select box
    succeeds, and gives the first position that holds that name. *)
Theorem X1_guess_is_a_column (r : role) (cols : list string) :
  (cols = [] -> guess_col r cols = raise IndexError) /\
  (cols <> [] ->
   exists c i,
     guess_col r cols = ret c /\ In c cols /\
     index_of c cols = Some i /\ nth_error cols i = Some c /\
     forall j, (j < i)%nat -> nth_error cols j <> Some c).
Proof.
  split.
  - intros ->. reflexivity.
  - intros Hne. destruct cols as [| first rest]; [contradiction |].
    assert (Hin : In (next (matches r) (first :: rest) first) (first :: rest))
      by (apply next_In; now left).
    destruct (index_of_In _ _ Hin) as [i [H1 [H2 H3]]].
    exists (next (matches r) (first :: rest) first), i.
    repeat split; assumption.
Qed.

Lemma X1_guess_is_a_column_witness :
  exists c i,
    guess_col RoleZ ["ID"; "Zone"; "ELEV"]%string = ret c /\
    In c ["ID"; "Zone"; "ELEV"]%string /\
    index_of c ["ID"; "Zone"; "ELEV"]%string = Some i /\
    nth_error ["ID"; "Zone"; "ELEV"]%string i = Some c /\
    forall j, (j < i)%nat -> nth_error ["ID"; "Zone"; "ELEV"]%string j <> Some c.
Proof.
  apply (proj2 (X1_guess_is_a_column RoleZ ["ID"; "Zone"; "ELEV"]%string)).
  discriminate.
Defined.

(** ** [calculate_statistics]: result, coercion and record invariants *)

(** X2. [calculate_statistics] never raises, and it returns a record
    exactly when it is given a DataFrame that has the grade column. *)
Theorem X2_record_iff_column (df : option DataFrame) (g : string) :
  exists r,
    snd (calculate_statistics df g) = ret r /\
    ((exists s, r = Some s) <->
     (exists d, df = Some d /\ In g (columns d))).
Proof.
  destruct df as [d |].
  - destruct (has_column d g) eqn:E.
    + apply has_column_In in E.
      destruct (calculate_statistics_present d g E) as [col [_ Hcalc]].
      rewrite Hcalc. eexists. split; [reflexivity |]. split.
      * intros _. now exists d.
      * intros _. eauto.
    + exists None. unfold calculate_statistics. rewrite E.
      split; [reflexivity |]. split.
      * intros [s Hs]. discriminate.
      * intros [d' [Hd Hin]]. injection Hd as <-.
        apply has_column_In in Hin. congruence.
  - exists None. split; [reflexivity |]. split.
    + intros [s Hs]. discriminate.
    + intros [d [Hd _]]. discriminate.
Qed.

Lemma to_numeric_idempotent (col : list cell) :
  Pandas.to_numeric (map Num (Pandas.to_numeric col)) = Pandas.to_numeric col.
Proof.
  unfold Pandas.to_numeric. rewrite !map_map. reflexivity.
Qed.

Lemma assign_idempotent g v cols :
  assign g v (assign g v cols) = assign g v cols.
Proof.
  induction cols as [| [c w] rest IH]; simpl; [reflexivity |].
  destruct (String.eqb g c) eqn:E; simpl; rewrite E; [reflexivity |].
  now rewrite IH.
Qed.

Lemma lookup_Some_In_pair g cols col :
  lookup g cols = Some col -> exists c, In (c, col) cols.
Proof.
  induction cols as [| [c w] rest IH]; simpl; [discriminate |].
  destruct (String.eqb g c).
  - intros H. injection H as <-. exists c. now left.
  - intros H. destruct (IH H) as [c' Hc']. exists c'. now right.
Qed.

Lemma assign_lengths g v cols (n : nat) :
  List.length v = n ->
  Forall (fun c => List.length (snd c) = n) cols ->
  Forall (fun c => List.length (snd c) = n) (assign g v cols).
Proof.
  intros Hv. induction 1 as [| [c w] rest Hc Hrest IH]; simpl;
    [constructor |].
  destruct (String.eqb g c); constructor; assumption.
Qed.

(** X3. A second call of [calculate_statistics] on the DataFrame that
    the first call left behind returns the same record and does not
    change the DataFrame again; the first call keeps the row labels and,
    for a well-formed DataFrame, gives a well-formed one. *)
Theorem X3_calculate_statistics_idempotent (d : DataFrame) (g : string) :
  In g (columns d) ->
  exists d' s,
    calculate_statistics (Some d) g = (Some d', ret (Some s)) /\
    calculate_statistics (Some d') g = (Some d', ret (Some s)) /\
    len d' = len d /\
    (well_formed d -> well_formed d').
Proof.
  intros Hin.
  destruct (calculate_statistics_present d g Hin) as [col [Hget Hcalc]].
  set (v := map Num (Pandas.to_numeric col)) in *.
  exists (setitem d g v), (computed g (Pandas.to_numeric col)).
  split; [exact Hcalc |]. split; [| split].
  - assert (Hin' : In g (columns (setitem d g v))).
    { unfold columns, setitem. simpl. now rewrite assign_names. }
    destruct (calculate_statistics_present _ g Hin') as [col' [Hget' Hcalc']].
    rewrite getitem_setitem in Hget' by now apply has_column_In.
    injection Hget' as <-. rewrite Hcalc'. unfold v.
    rewrite to_numeric_idempotent. f_equal. f_equal.
    unfold setitem. simpl. now rewrite assign_idempotent.
  - reflexivity.
  - intros [Hnd Hlen]. split; [exact Hnd |].
    unfold setitem, len. simpl. apply assign_lengths; [| exact Hlen].
    unfold v, Pandas.to_numeric. rewrite !length_map.
    destruct (lookup_Some_In_pair _ _ _ Hget) as [c Hc].
    rewrite Forall_forall in Hlen. exact (Hlen _ Hc).
Qed.

Lemma X3_calculate_statistics_idempotent_witness :
  exists d' s,
    calculate_statistics (Some df_two) "AU_GPT" = (Some d', ret (Some s)) /\
    calculate_statistics (Some d') "AU_GPT" = (Some d', ret (Some s)) /\
    len d' = len df_two /\
    (well_formed df_two -> well_formed d').
Proof.
  apply (X3_calculate_statistics_idempotent df_two "AU_GPT").
  simpl. right. left. reflexivity.
Defined.

Lemma float_of_retag (like : pyval) (f : float) : float_of (retag like f) = f.
Proof. unfold retag. now destruct (is_np like). Qed.

(** X4. In every record, the contained metal is the record's own
    tonnage times its mean grade over 1000, the recoverable metal is the
    contained metal times the record's recovery over 100, and the
    tonnage is the volume times the density, all in binary64. *)
Theorem X4_record_is_consistent (d : DataFrame) (g : string) :
  In g (columns d) ->
  exists s,
    snd (calculate_statistics (Some d) g) = ret (Some s) /\
    float_of (metal_contenu s) =
      div (mul (float_of (tonnage s)) (float_of (teneur_moyenne s)))
          (of_Z 1000) /\
    float_of (metal_recuperable s) =
      div (mul (float_of (metal_contenu s)) (float_of (recuperation s)))
          (of_Z 100) /\
    float_of (tonnage s) = mul (float_of (volume s)) (float_of (densite s)).
Proof.
  intros Hin.
  destruct (calculate_statistics_present d g Hin) as [col [_ Hcalc]].
  rewrite Hcalc. eexists. split; [reflexivity |].
  unfold computed.
  cbn [metal_contenu metal_recuperable tonnage teneur_moyenne recuperation
       volume densite].
  rewrite !float_of_retag.
  destruct (str_in "composite" g); repeat split; vm_compute; reflexivity.
Qed.

Lemma X4_record_is_consistent_witness :
  exists s,
    snd (calculate_statistics (Some df_au) "AU_GPT") = ret (Some s) /\
    float_of (metal_contenu s) =
      div (mul (float_of (tonnage s)) (float_of (teneur_moyenne s)))
          (of_Z 1000) /\
    float_of (metal_recuperable s) =
      div (mul (float_of (metal_contenu s)) (float_of (recuperation s)))
          (of_Z 100) /\
    float_of (tonnage s) = mul (float_of (volume s)) (float_of (densite s)).
Proof.
  apply (X4_record_is_consistent df_au "AU_GPT"). simpl. left. reflexivity.
Defined.

(** X5. When no value of the grade column is left after coercion (an
    empty dataset, or only texts and missing values), the record is
    still returned: its mean, minimum, maximum, standard deviation,
    contained metal and recoverable metal are all NaN. *)
Theorem X5_empty_grade_set (d : DataFrame) (g : string) (col : list cell) :
  getitem d g = Some col ->
  Pandas.count (Pandas.to_numeric col) = 0%nat ->
  exists s,
    snd (calculate_statistics (Some d) g) = ret (Some s) /\
    float_of (teneur_moyenne s) = nan /\
    float_of (teneur_min s) = nan /\
    float_of (teneur_max s) = nan /\
    float_of (ecart_type s) = nan /\
    float_of (metal_contenu s) = nan /\
    float_of (metal_recuperable s) = nan.
Proof.
  intros Hcol Hcount.
  destruct (calculate_statistics_present d g) as [col' [Hget Hcalc]].
  { apply lookup_Some_In with (1 := Hcol). }
  rewrite Hcol in Hget. injection Hget as <-.
  rewrite Hcalc. eexists. split; [reflexivity |].
  unfold computed.
  cbn [teneur_moyenne teneur_min teneur_max ecart_type metal_contenu
       metal_recuperable].
  rewrite !float_of_retag, std_single by lia.
  unfold Pandas.mean, Pandas.min, Pandas.max. rewrite Hcount.
  cbn [Nat.ltb Nat.leb Nat.eqb float_of].
  destruct (Pandas.to_numeric col);
    destruct (str_in "composite" g); repeat split; reflexivity.
Qed.

Lemma X5_empty_grade_set_witness :
  exists s,
    snd (calculate_statistics (Some df_two) "ID") = ret (Some s) /\
    float_of (teneur_moyenne s) = nan /\
    float_of (teneur_min s) = nan /\
    float_of (teneur_max s) = nan /\
    float_of (ecart_type s) = nan /\
    float_of (metal_contenu s) = nan /\
    float_of (metal_recuperable s) = nan.
Proof.
  apply (X5_empty_grade_set df_two "ID" [Text "a"; Text "b"]); reflexivity.
Defined.

(** X6. With at least one value present, the minimum and the maximum of
    the record are themselves values of the grade column (texts and
    missing values never show up in them), the minimum is below or
    equal to every present value and the maximum above or equal. *)
Theorem X6_min_max_are_extreme_values
  (d : DataFrame) (g : string) (col : list cell) :
  getitem d g = Some col ->
  (1 <= Pandas.count (Pandas.to_numeric col))%nat ->
  exists s lo hi,
    snd (calculate_statistics (Some d) g) = ret (Some s) /\
    teneur_min s = NpFloat64 lo /\ teneur_max s = NpFloat64 hi /\
    present (Pandas.to_numeric col) lo /\
    present (Pandas.to_numeric col) hi /\
    forall v, present (Pandas.to_numeric col) v ->
              leb lo v = true /\ leb v hi = true.
Proof.
  intros Hcol Hcount.
  destruct (calculate_statistics_present d g) as [col' [Hget Hcalc]].
  { apply lookup_Some_In with (1 := Hcol). }
  rewrite Hcol in Hget. injection Hget as <-.
  rewrite Hcalc. set (s := Pandas.to_numeric col) in *.
  exists (computed g s), (Pandas.np_min (Pandas.fillna pinf s)),
    (Pandas.np_max (Pandas.fillna ninf s)).
  split; [reflexivity |].
  unfold computed. cbn [teneur_min teneur_max].
  rewrite min_present, max_present by lia.
  split; [reflexivity |]. split; [reflexivity |].
  apply extremes_present. lia.
Qed.

Lemma X6_min_max_are_extreme_values_witness :
  exists s lo hi,
    snd (calculate_statistics (Some df_two) "AU_GPT") = ret (Some s) /\
    teneur_min s = NpFloat64 lo /\ teneur_max s = NpFloat64 hi /\
    present (Pandas.to_numeric [Num (lit 15 1); Text "n/a"]) lo /\
    present (Pandas.to_numeric [Num (lit 15 1); Text "n/a"]) hi /\
    forall v, present (Pandas.to_numeric [Num (lit 15 1); Text "n/a"]) v ->
              leb lo v = true /\ leb v hi = true.
Proof.
  apply (X6_min_max_are_extreme_values df_two "AU_GPT"
           [Num (lit 15 1); Text "n/a"]).
  - reflexivity.
  - vm_compute. lia.
Defined.

(** ** The differences of the comparison page *)

Lemma pct_diff_result (a b : pyval) :
  convertible a -> convertible b -> safe_divisor a ->
  pct_diff a b =
    ret ((if is_np b || is_np a then NpFloat64 else PyFloat)
           (pct (float_of a) (float_of b))).
Proof.
  unfold safe_divisor, pct_diff, py_truediv, pct.
  intros Ha Hb Hsafe. unfold convertible in Ha, Hb. rewrite Ha, Hb.
  cbn [bind ret].
  destruct (is_np b || is_np a) eqn:E.
  - reflexivity.
  - apply orb_false_iff in E. destruct E as [_ E].
    destruct Hsafe as [Hnp | Hz]; [congruence |].
    rewrite Hz. reflexivity.
Qed.

(** A finite value divided by itself is exactly 1. *)
Lemma div_self (s : bool) (m : positive) (e : Z) :
  div (S754_finite s m e) (S754_finite s m e) = of_Z 1.
Proof.
  unfold div, SFdiv, SFdiv_core_binary. cbv zeta.
  replace (Zdigits2 (Zpos m) + e - (Zdigits2 (Zpos m) + e)) with 0 by lia.
  replace (e - e) with 0 by lia.
  change (Z.min (fexp prec emax 0) 0) with (-53).
  change (0 - -53) with 53.
  cbv iota.
  rewrite Z.shiftl_mul_pow2 by lia.
  destruct (Z.div_eucl (Zpos m * 2 ^ 53) (Zpos m)) as [q r] eqn:E.
  assert (Hq : q = 2 ^ 53).
  { change q with (fst (q, r)). rewrite <- E.
    change (fst (Z.div_eucl (Zpos m * 2 ^ 53) (Zpos m)))
      with (Zpos m * 2 ^ 53 / Zpos m).
    rewrite Z.mul_comm. apply Z.div_mul. discriminate. }
  assert (Hr : r = 0).
  { change r with (snd (q, r)). rewrite <- E.
    change (snd (Z.div_eucl (Zpos m * 2 ^ 53) (Zpos m)))
      with ((Zpos m * 2 ^ 53) mod Zpos m).
    rewrite Z.mul_comm. apply Z.mod_mul. discriminate. }
  subst q r.
  replace (new_location (Zpos m) 0) with loc_Exact.
  2:{ unfold new_location, new_location_even, new_location_odd.
      now destruct (Z.even (Zpos m)). }
  replace (xorb s s) with false by now destruct s.
  vm_compute. reflexivity.
Qed.

Lemma pct_self (f : float) : pct f f = if is_finite f then zero else nan.
Proof.
  destruct f as [[] | [] | | s m e]; try reflexivity.
  unfold pct. rewrite div_self. vm_compute. reflexivity.
Qed.

(** X7. Comparing a record with itself never raises and never gives a
    positive or a negative difference: every difference is exactly 0
    where the field is a finite non-zero number and NaN where the field
    is zero, infinite or NaN, and its class is "neutral" in all cases. *)
Theorem X7_self_difference_is_neutral (d : DataFrame) (g : string) :
  In g (columns d) ->
  exists s,
    snd (calculate_statistics (Some d) g) = ret (Some s) /\
    forall m, exists v,
      diff m s s = ret v /\
      float_of v = (if is_finite (float_of (field m s)) then zero else nan) /\
      get_diff_class v = "neutral"%string.
Proof.
  intros Hin.
  destruct (calculate_statistics_present d g Hin) as [col [_ Hcalc]].
  rewrite Hcalc. eexists. split; [reflexivity |]. intros m.
  destruct (field_computed m g (Pandas.to_numeric col)) as [Ha Hsafe].
  unfold diff. rewrite (pct_diff_result _ _ Ha Ha Hsafe), pct_self.
  eexists. split; [reflexivity |].
  destruct (is_np _ || is_np _);
    destruct (is_finite _); split; reflexivity.
Qed.

Lemma X7_self_difference_is_neutral_witness :
  exists s,
    snd (calculate_statistics (Some df_zero) "AU") = ret (Some s) /\
    forall m, exists v,
      diff m s s = ret v /\
      float_of v = (if is_finite (float_of (field m s)) then zero else nan) /\
      get_diff_class v = "neutral"%string.
Proof.
  apply (X7_self_difference_is_neutral df_zero "AU"). simpl. left. reflexivity.
Defined.

(** X8. The differences of volume, tonnage, density and recovery depend
    only on the two grade-column names.  The density difference is
    always exactly 0 and the volume and tonnage differences are always
    equal.  When both names contain "composite", or neither does (as
    with AU_GPT and GRADE of the example data), the volume and recovery
    differences are exactly 0 as well; when only the composite name
    contains it, the volume difference is positive and the recovery
    difference negative. *)
Theorem X8_placeholder_differences (d1 d2 : DataFrame) (g1 g2 : string) :
  In g1 (columns d1) -> In g2 (columns d2) ->
  exists cs bs,
    snd (calculate_statistics (Some d1) g1) = ret (Some cs) /\
    snd (calculate_statistics (Some d2) g2) = ret (Some bs) /\
    den_diff cs bs = ret (PyFloat zero) /\
    vol_diff cs bs = ton_diff cs bs /\
    (str_in "composite" g1 = str_in "composite" g2 ->
     vol_diff cs bs = ret (PyFloat zero) /\
     recup_diff cs bs = ret (PyFloat zero)) /\
    (str_in "composite" g1 = true -> str_in "composite" g2 = false ->
     exists v r,
       vol_diff cs bs = ret v /\ get_diff_class v = "positive"%string /\
       recup_diff cs bs = ret r /\ get_diff_class r = "negative"%string).
Proof.
  intros H1 H2.
  destruct (calculate_statistics_present d1 g1 H1) as [c1 [_ E1]].
  destruct (calculate_statistics_present d2 g2 H2) as [c2 [_ E2]].
  rewrite E1, E2. do 2 eexists. split; [reflexivity |].
  split; [reflexivity |].
  unfold den_diff, vol_diff, ton_diff, recup_diff, diff, computed.
  cbn [field volume tonnage densite recuperation].
  destruct (str_in "composite" g1), (str_in "composite" g2);
    (split; [vm_compute; reflexivity |]);
    (split; [vm_compute; reflexivity |]);
    (split; [intros E; try discriminate E; split; vm_compute; reflexivity |]);
    intros Ha Hb; try discriminate Ha; try discriminate Hb;
    do 2 eexists; repeat split; vm_compute; reflexivity.
Qed.

Lemma X8_placeholder_differences_witness :
  exists cs bs,
    snd (calculate_statistics (Some df_au) "AU_GPT") = ret (Some cs) /\
    snd (calculate_statistics (Some df_zero) "AU") = ret (Some bs) /\
    den_diff cs bs = ret (PyFloat zero) /\
    vol_diff cs bs = ton_diff cs bs /\
    vol_diff cs bs = ret (PyFloat zero) /\
    recup_diff cs bs = ret (PyFloat zero).
Proof.
  destruct (X8_placeholder_differences df_au df_zero "AU_GPT" "AU")
    as [cs [bs [E1 [E2 [E3 [E4 [E5 _]]]]]]].
  - simpl. left. reflexivity.
  - simpl. left. reflexivity.
  - exists cs, bs. destruct (E5 eq_refl) as [E6 E7].
    repeat split; assumption.
Defined.

(** ** The 3D figures *)

Lemma lookup_None (g : string) (cols : list (string * list cell)) :
  ~ In g (map fst cols) -> lookup g cols = None.
Proof.
  intros Hnot. destruct (lookup g cols) as [v |] eqn:E; [| reflexivity].
  apply lookup_Some_In in E. contradiction.
Qed.

Lemma coerced_refl (d : DataFrame) : coerced d [] d.
Proof.
  split; [reflexivity |]. split; [reflexivity |].
  intros k. split; [intros [] | reflexivity].
Qed.

(** One coercion of [create_3d_scatter]. *)
Lemma coerce_step (d di : DataFrame) (done : list string) (c : string) :
  coerced d done di ->
  (In c (columns d) ->
   exists d', coerce di c = ret d' /\ coerced d (c :: done) d') /\
  (~ In c (columns d) -> coerce di c = raise KeyError).
Proof.
  intros [Hidx [Hcols Hget]]. unfold coerce. split.
  - intros Hin.
    assert (Hin' : In c (columns di)) by now rewrite Hcols.
    destruct (lookup_In c (data di) Hin') as [col Hcol].
    unfold getitem at 1. rewrite Hcol. eexists. split; [reflexivity |].
    split; [exact Hidx |]. split.
    { unfold columns, setitem. simpl. rewrite assign_names. exact Hcols. }
    intros k. destruct (string_dec k c) as [-> | Hne].
    + split; [| intros Hn; exfalso; apply Hn; now left].
      intros _. rewrite getitem_setitem by now apply has_column_In.
      destruct (in_dec string_dec c done) as [Hd | Hd].
      * apply (proj1 (Hget c)) in Hd. unfold getitem in Hd.
        rewrite Hcol in Hd. unfold numeric_col in *.
        destruct (getitem d c) as [col0 |]; [| discriminate].
        simpl in *. injection Hd as ->. now rewrite to_numeric_idempotent.
      * apply (proj2 (Hget c)) in Hd. unfold getitem in Hd.
        rewrite Hcol in Hd. unfold numeric_col, getitem. now rewrite <- Hd.
    + unfold getitem, setitem. simpl.
      rewrite lookup_assign_other by assumption. split.
      * intros [Heq | Hd]; [congruence | now apply Hget].
      * intros Hn. apply Hget. intros Hd. apply Hn. now right.
  - intros Hnot. unfold getitem. rewrite lookup_None; [reflexivity |].
    fold (columns di). now rewrite Hcols.
Qed.

(** With the four columns present, the four coercions go through. *)
Lemma create_3d_scatter_present
  (perm : list nat) (d : DataFrame) (x y z g : string) :
  In x (columns d) -> In y (columns d) -> In z (columns d) ->
  In g (columns d) ->
  exists d4,
    create_3d_scatter perm (Some d) x y z g =
      ret (Some (d4, df_sample 5000 perm d4)) /\
    coerced d [g; z; y; x] d4.
Proof.
  intros Hx Hy Hz Hg.
  destruct (proj1 (coerce_step d d [] x (coerced_refl d)) Hx) as [d1 [E1 C1]].
  destruct (proj1 (coerce_step d d1 _ y C1) Hy) as [d2 [E2 C2]].
  destruct (proj1 (coerce_step d d2 _ z C2) Hz) as [d3 [E3 C3]].
  destruct (proj1 (coerce_step d d3 _ g C3) Hg) as [d4 [E4 C4]].
  exists d4. unfold create_3d_scatter.
  rewrite E1, bind_ret, E2, bind_ret, E3, bind_ret, E4, bind_ret.
  split; [reflexivity | exact C4].
Qed.

(** X9. [create_3d_scatter] returns no figure for [None]; for a
    DataFrame it succeeds exactly when the four mapped columns exist and
    raises [KeyError] otherwise.  On success the row labels and column
    names are kept, each of the four columns ends up as its numeric
    coercion (also when one column serves two roles) and every other
    column is untouched. *)
Theorem X9_create_3d_scatter_columns
  (perm : list nat) (d : DataFrame) (x y z g : string) :
  create_3d_scatter perm None x y z g = ret None /\
  (In x (columns d) /\ In y (columns d) /\ In z (columns d) /\
   In g (columns d) ->
   exists d4,
     create_3d_scatter perm (Some d) x y z g =
       ret (Some (d4, df_sample 5000 perm d4)) /\
     index d4 = index d /\ columns d4 = columns d /\
     (forall k, In k [x; y; z; g] -> getitem d4 k = numeric_col d k) /\
     (forall k, ~ In k [x; y; z; g] -> getitem d4 k = getitem d k)) /\
  (~ (In x (columns d) /\ In y (columns d) /\ In z (columns d) /\
      In g (columns d)) ->
   create_3d_scatter perm (Some d) x y z g = raise KeyError).
Proof.
  split; [reflexivity |]. split.
  - intros [Hx [Hy [Hz Hg]]].
    destruct (create_3d_scatter_present perm d x y z g Hx Hy Hz Hg)
      as [d4 [E4 C4]].
    exists d4. split; [exact E4 |].
    destruct C4 as [Hidx [Hcols Hget]].
    split; [exact Hidx |]. split; [exact Hcols |]. split.
    + intros k Hk. apply Hget.
      destruct Hk as [<- | [<- | [<- | [<- | []]]]];
        cbn [In]; auto.
    + intros k Hk. apply Hget. intros Hd. apply Hk.
      destruct Hd as [<- | [<- | [<- | [<- | []]]]];
        cbn [In]; auto.
  - intros Hnot.
    destruct (in_dec string_dec x (columns d)) as [Hx | Hx].
    2:{ unfold create_3d_scatter.
        rewrite (proj2 (coerce_step d d [] x (coerced_refl d)) Hx).
        reflexivity. }
    destruct (proj1 (coerce_step d d [] x (coerced_refl d)) Hx) as [d1 [E1 C1]].
    destruct (in_dec string_dec y (columns d)) as [Hy | Hy].
    2:{ unfold create_3d_scatter.
        rewrite E1, bind_ret, (proj2 (coerce_step d d1 _ y C1) Hy).
        reflexivity. }
    destruct (proj1 (coerce_step d d1 _ y C1) Hy) as [d2 [E2 C2]].
    destruct (in_dec string_dec z (columns d)) as [Hz | Hz].
    2:{ unfold create_3d_scatter.
        rewrite E1, bind_ret, E2, bind_ret,
          (proj2 (coerce_step d d2 _ z C2) Hz).
        reflexivity. }
    destruct (proj1 (coerce_step d d2 _ z C2) Hz) as [d3 [E3 C3]].
    destruct (in_dec string_dec g (columns d)) as [Hg | Hg].
    2:{ unfold create_3d_scatter.
        rewrite E1, bind_ret, E2, bind_ret, E3, bind_ret,
          (proj2 (coerce_step d d3 _ g C3) Hg).
        reflexivity. }
    exfalso. apply Hnot. now repeat split.
Qed.

Lemma X9_create_3d_scatter_columns_witness :
  exists d4,
    create_3d_scatter [0; 1; 2]%nat (Some df3) "X" "X" "X" "X" =
      ret (Some (d4, df_sample 5000 [0; 1; 2]%nat d4)) /\
    index d4 = index df3 /\ columns d4 = columns df3 /\
    (forall k, In k ["X"; "X"; "X"; "X"]%string ->
               getitem d4 k = numeric_col df3 k) /\
    (forall k, ~ In k ["X"; "X"; "X"; "X"]%string ->
               getitem d4 k = getitem df3 k).
Proof.
  apply (proj1 (proj2 (X9_create_3d_scatter_columns
                         [0; 1; 2]%nat df3 "X" "X" "X" "X"))).
  repeat split; simpl; left; reflexivity.
Defined.

Lemma df_sample_small (cap : nat) (perm : list nat) (d : DataFrame) :
  (len d <= cap)%nat -> df_sample cap perm d = d.
Proof.
  intros H. unfold df_sample. rewrite Nat.min_r by assumption.
  now rewrite Nat.ltb_irrefl.
Qed.

Lemma columns_df_sample (cap : nat) (perm : list nat) (d : DataFrame) :
  columns (df_sample cap perm d) = columns d.
Proof.
  unfold df_sample. destruct (Nat.min cap (len d) <? len d)%nat;
    [| reflexivity].
  unfold columns, sample. simpl. rewrite map_map. reflexivity.
Qed.

Lemma len_df_sample (cap : nat) (perm : list nat) (d : DataFrame) :
  Permutation perm (seq 0 (len d)) ->
  len (df_sample cap perm d) = Nat.min cap (len d).
Proof.
  intros Hperm. unfold df_sample.
  destruct (Nat.min cap (len d) <? len d)%nat eqn:E.
  - apply Nat.ltb_lt in E.
    destruct (drawn_positions perm (Nat.min cap (len d)) (len d) Hperm)
      as [_ [Hlen Hr]]; [lia |].
    unfold len at 1, sample. simpl.
    rewrite take_length; [exact Hlen | exact Hr].
  - apply Nat.ltb_ge in E. lia.
Qed.

(** X10. The figure of [create_3d_scatter] never holds more than 5000
    points: it plots min(5000, rows) rows with the columns of the
    dataset, and the whole coerced dataset when it has at most 5000
    rows. *)
Theorem X10_at_most_5000_points
  (perm : list nat) (d : DataFrame) (x y z g : string) :
  Permutation perm (seq 0 (len d)) ->
  In x (columns d) -> In y (columns d) -> In z (columns d) ->
  In g (columns d) ->
  exists d4 plotted,
    create_3d_scatter perm (Some d) x y z g = ret (Some (d4, plotted)) /\
    len plotted = Nat.min 5000 (len d) /\
    (len plotted <= 5000)%nat /\
    columns plotted = columns d /\
    ((len d <= 5000)%nat -> plotted = d4).
Proof.
  intros Hperm Hx Hy Hz Hg.
  destruct (create_3d_scatter_present perm d x y z g Hx Hy Hz Hg)
    as [d4 [E4 [Hidx [Hcols _]]]].
  exists d4, (df_sample 5000 perm d4). split; [exact E4 |].
  assert (Hlen : len d4 = len d) by (unfold len; now rewrite Hidx).
  assert (Hl : len (df_sample 5000 perm d4) = Nat.min 5000 (len d)).
  { rewrite <- Hlen. apply len_df_sample. now rewrite Hlen. }
  split; [exact Hl |]. split; [rewrite Hl; apply Nat.le_min_l |].
  split; [now rewrite columns_df_sample |].
  intros Hsmall. apply df_sample_small. now rewrite Hlen.
Qed.

Lemma X10_at_most_5000_points_witness :
  exists d4 plotted,
    create_3d_scatter [0; 1; 2]%nat (Some df3) "X" "X" "X" "X" =
      ret (Some (d4, plotted)) /\
    len plotted = Nat.min 5000 (len df3) /\
    (len plotted <= 5000)%nat /\
    columns plotted = columns df3 /\
    ((len df3 <= 5000)%nat -> plotted = d4).
Proof.
  apply (X10_at_most_5000_points [0; 1; 2]%nat df3 "X" "X" "X" "X").
  - apply Permutation_refl.
  - simpl; left; reflexivity.
  - simpl; left; reflexivity.
  - simpl; left; reflexivity.
  - simpl; left; reflexivity.
Defined.

(** X11. On the 3D page the block model is sampled once: the page keeps
    min(3000, rows) rows, and the sampling step inside
    [create_3d_scatter] then returns its input whatever the generator
    draws, so the figure shows exactly the coerced 3000-row sample. *)
Theorem X11_block_fig_is_sampled_once
  (perm perm' : list nat) (s : session) (d : DataFrame)
  (comp blk : col_mapping) :
  block_data s = Some d -> mapping s = Some (comp, blk) ->
  Permutation perm (seq 0 (len d)) ->
  In (x_col blk) (columns d) -> In (y_col blk) (columns d) ->
  In (z_col blk) (columns d) -> In (grade_col blk) (columns d) ->
  exists d4,
    block_fig perm perm' s = inr (Some (d4, d4)) /\
    len d4 = Nat.min 3000 (len d) /\
    index d4 = index (block_data_sample perm d) /\
    columns d4 = columns d.
Proof.
  intros Hd Hm Hperm Hx Hy Hz Hg. unfold block_fig. rewrite Hd, Hm.
  assert (Hc : columns (block_data_sample perm d) = columns d)
    by apply columns_df_sample.
  destruct (create_3d_scatter_present perm' (block_data_sample perm d)
              (x_col blk) (y_col blk) (z_col blk) (grade_col blk))
    as [d4 [E4 [Hidx [Hcols _]]]]; try (rewrite Hc; assumption).
  assert (Hlen : len d4 = Nat.min 3000 (len d)).
  { unfold len at 1. rewrite Hidx. fold (len (block_data_sample perm d)).
    now apply len_df_sample. }
  exists d4. rewrite E4.
  rewrite df_sample_small.
  - split; [reflexivity |]. split; [exact Hlen |].
    split; [exact Hidx | now rewrite Hcols].
  - rewrite Hlen.
    apply Nat.le_trans with 3000%nat; [apply Nat.le_min_l |].
    apply Nat.leb_le. vm_compute. reflexivity.
Qed.

Lemma X11_block_fig_is_sampled_once_witness :
  exists d4,
    block_fig [2; 0; 1]%nat [] session3 = inr (Some (d4, d4)) /\
    len d4 = Nat.min 3000 (len df3) /\
    index d4 = index (block_data_sample [2; 0; 1]%nat df3) /\
    columns d4 = columns df3.
Proof.
  apply (X11_block_fig_is_sampled_once [2; 0; 1]%nat [] session3 df3
           mapping_X mapping_X).
  - reflexivity.
  - reflexivity.
  - exact (Permutation_cons_append [0; 1]%nat 2%nat).
  - simpl; left; reflexivity.
  - simpl; left; reflexivity.
  - simpl; left; reflexivity.
  - simpl; left; reflexivity.
Defined.

(** ** The example data *)

Lemma len_DataFrame_of (name : string) (a : list float)
  (rest : list (string * list float)) :
  len (DataFrame_of ((name, a) :: rest)) = List.length a.
Proof. unfold len, DataFrame_of. simpl. apply length_seq. Qed.

(** What the example button leaves in the session. *)
Lemma charger_exemple_session (s : session)
  (xc yc zc gc xb yb zb gb : list float) :
  exists cd bd cs bs,
    charger_exemple s xc yc zc gc xb yb zb gb =
      ({| composite_data := Some cd; block_data := Some bd;
          composite_stats := Some cs; block_stats := Some bs;
          composite_columns := Some ["EAST"; "NORTH"; "ELEV"; "AU_GPT"]%string;
          block_columns := Some ["X"; "Y"; "Z"; "GRADE"]%string;
          mapping := Some example_mapping |}, ret tt) /\
    len cd = List.length xc /\
    columns cd = ["EAST"; "NORTH"; "ELEV"; "AU_GPT"]%string /\
    len bd = List.length xb /\
    columns bd = ["X"; "Y"; "Z"; "GRADE"]%string /\
    cs = computed "AU_GPT" (Pandas.to_numeric (map Num gc)) /\
    bs = computed "GRADE" (Pandas.to_numeric (map Num gb)).
Proof.
  unfold charger_exemple.
  set (ce := DataFrame_of [("EAST"%string, xc); ("NORTH"%string, yc);
                           ("ELEV"%string, zc); ("AU_GPT"%string, gc)]).
  set (be := DataFrame_of [("X"%string, xb); ("Y"%string, yb);
                           ("Z"%string, zb); ("GRADE"%string, gb)]).
  destruct (calculate_statistics_present ce "AU_GPT") as [c1 [G1 E1]].
  { simpl. auto. }
  destruct (calculate_statistics_present be "GRADE") as [c2 [G2 E2]].
  { simpl. auto. }
  assert (G1' : getitem ce "AU_GPT" = Some (map Num gc)) by reflexivity.
  assert (G2' : getitem be "GRADE" = Some (map Num gb)) by reflexivity.
  rewrite G1' in G1. rewrite G2' in G2.
  injection G1 as <-. injection G2 as <-. rewrite E1, E2. cbn [ret].
  do 4 eexists. split; [reflexivity |].
  split; [apply len_DataFrame_of |].
  split; [reflexivity |].
  split; [apply len_DataFrame_of |].
  split; [reflexivity |].
  split; reflexivity.
Qed.

(** X12. After the example button, with the 1000 composites and the
    5000 blocks the generator returns: both records exist and carry the
    same placeholders (volume 1275000, tonnage 3442500, recovery 91.0),
    since neither AU_GPT nor GRADE contains "composite"; the composite
    figure shows all 1000 rows and the block figure 3000 rows. *)
Theorem X12_example_session (s : session)
  (xc yc zc gc xb yb zb gb : list float) (perm0 perm perm' : list nat) :
  Forall (fun a => List.length a = 1000%nat) [xc; yc; zc; gc] ->
  Forall (fun a => List.length a = 5000%nat) [xb; yb; zb; gb] ->
  Permutation perm (seq 0 5000) ->
  let s' := fst (charger_exemple s xc yc zc gc xb yb zb gb) in
  snd (charger_exemple s xc yc zc gc xb yb zb gb) = ret tt /\
  mapping s' = Some example_mapping /\
  (exists cs bs,
     composite_stats s' = Some cs /\ block_stats s' = Some bs /\
     volume cs = PyInt 1275000 /\ volume bs = PyInt 1275000 /\
     tonnage cs = PyInt 3442500 /\ tonnage bs = PyInt 3442500 /\
     recuperation cs = PyFloat (lit 910 1) /\
     recuperation bs = PyFloat (lit 910 1)) /\
  (exists dc, composite_fig perm0 s' = inr (Some (dc, dc)) /\
              len dc = 1000%nat) /\
  (exists db pb, block_fig perm perm' s' = inr (Some (db, pb)) /\
                 len pb = 3000%nat).
Proof.
  intros Hc Hb Hperm s'.
  apply Forall_inv in Hc. apply Forall_inv in Hb.
  destruct (charger_exemple_session s xc yc zc gc xb yb zb gb)
    as [cd [bd [cs [bs [E [Lc [Cc [Lb [Cb [Ecs Ebs]]]]]]]]]].
  subst s'. rewrite E. cbn [fst snd mapping composite_stats block_stats].
  split; [reflexivity |]. split; [reflexivity |]. split; [| split].
  - exists cs, bs. subst cs bs. repeat split; reflexivity.
  - unfold composite_fig, example_mapping.
    cbn [mapping composite_data x_col y_col z_col grade_col].
    destruct (create_3d_scatter_present perm0 cd "EAST" "NORTH" "ELEV" "AU_GPT")
      as [d4 [E4 [Hidx _]]]; try (rewrite Cc; simpl; auto).
    assert (Hlen : len d4 = 1000%nat)
      by (unfold len; rewrite Hidx; fold (len cd); congruence).
    exists d4. rewrite E4, df_sample_small.
    + split; [reflexivity | exact Hlen].
    + rewrite Hlen. apply Nat.leb_le. vm_compute. reflexivity.
  - assert (Hp : Permutation perm (seq 0 (len bd))) by (rewrite Lb, Hb; exact Hperm).
    unfold block_fig, example_mapping.
    cbn [mapping block_data x_col y_col z_col grade_col].
    assert (Hcols : columns (block_data_sample perm bd) = columns bd)
      by apply columns_df_sample.
    destruct (create_3d_scatter_present perm' (block_data_sample perm bd)
                "X" "Y" "Z" "GRADE")
      as [d4 [E4 [Hidx _]]]; try (rewrite Hcols, Cb; simpl; auto).
    assert (Hlen : len d4 = 3000%nat).
    { unfold len at 1. rewrite Hidx. fold (len (block_data_sample perm bd)).
      unfold block_data_sample. rewrite len_df_sample by exact Hp.
      rewrite Lb, Hb. apply Nat.min_l. apply Nat.leb_le.
      vm_compute. reflexivity. }
    exists d4, (df_sample 5000 perm' d4). rewrite E4.
    split; [reflexivity |]. rewrite df_sample_small; [exact Hlen |].
    rewrite Hlen. apply Nat.leb_le. vm_compute. reflexivity.
Qed.

Lemma X12_example_session_witness :
  let s' := fst (charger_exemple initial_session
                   (zeros 1000) (zeros 1000) (zeros 1000) (zeros 1000)
                   (zeros 5000) (zeros 5000) (zeros 5000) (zeros 5000)) in
  mapping s' = Some example_mapping /\
  (exists dc, composite_fig [] s' = inr (Some (dc, dc)) /\
              len dc = 1000%nat) /\
  (exists db pb, block_fig (seq 0 5000) [] s' = inr (Some (db, pb)) /\
                 len pb = 3000%nat).
Proof.
  destruct (X12_example_session initial_session
              (zeros 1000) (zeros 1000) (zeros 1000) (zeros 1000)
              (zeros 5000) (zeros 5000) (zeros 5000) (zeros 5000)
              [] (seq 0 5000) [])
    as [_ [Hm [_ [Hc Hb]]]].
  - repeat constructor; apply repeat_length.
  - repeat constructor; apply repeat_length.
  - apply Permutation_refl.
  - split; [exact Hm |]. split; [exact Hc | exact Hb].
Defined.

(** ** The analysis and the comparison chart *)

Lemma forallb_is_num (l : list float) : forallb is_num (map Num l) = true.
Proof. induction l as [| x l IH]; simpl; auto. Qed.

(** X13. After "Appliquer et analyser" on two loaded datasets whose
    chosen grade columns exist, nothing has raised, the mapping and both
    records are stored, and the comparison chart is produced: its box
    plots are the numeric coercions of the two grade columns (numbers
    only) and its bars are the mean, standard deviation and contained
    metal of each record. *)
Theorem X13_analysis_then_chart
  (s : session) (comp blk : col_mapping) (dc db : DataFrame) :
  composite_data s = Some dc -> block_data s = Some db ->
  In (grade_col comp) (columns dc) -> In (grade_col blk) (columns db) ->
  let s' := fst (appliquer_et_analyser s comp blk) in
  snd (appliquer_et_analyser s comp blk) = ret tt /\
  mapping s' = Some (comp, blk) /\
  exists cs bs chart,
    composite_stats s' = Some cs /\ block_stats s' = Some bs /\
    create_comparison_chart s' (Some cs) (Some bs) = inr (Some chart) /\
    Some (box_composite chart) = numeric_col dc (grade_col comp) /\
    Some (box_block chart) = numeric_col db (grade_col blk) /\
    forallb is_num (box_composite chart) = true /\
    forallb is_num (box_block chart) = true /\
    bar_composite chart =
      [teneur_moyenne cs; ecart_type cs; metal_contenu cs] /\
    bar_block chart = [teneur_moyenne bs; ecart_type bs; metal_contenu bs].
Proof.
  intros Hdc Hdb Hc Hb s'. subst s'. unfold appliquer_et_analyser.
  rewrite Hdc, Hdb.
  destruct (calculate_statistics_present dc _ Hc) as [c1 [G1 E1]].
  destruct (calculate_statistics_present db _ Hb) as [c2 [G2 E2]].
  rewrite E1, E2. cbn [ret fst snd mapping composite_stats block_stats].
  split; [reflexivity |]. split; [reflexivity |].
  do 3 eexists. split; [reflexivity |]. split; [reflexivity |].
  unfold create_comparison_chart, grade_series.
  cbn [composite_data block_data mapping option_map fst snd].
  rewrite !getitem_setitem by now apply has_column_In.
  split; [reflexivity |].
  cbn [box_composite box_block bar_composite bar_block].
  unfold numeric_col. rewrite G1, G2. cbn [option_map].
  repeat split; apply forallb_is_num.
Qed.

Lemma X13_analysis_then_chart_witness :
  let s' := fst (appliquer_et_analyser session3 mapping_X mapping_X) in
  snd (appliquer_et_analyser session3 mapping_X mapping_X) = ret tt /\
  mapping s' = Some (mapping_X, mapping_X) /\
  exists cs bs chart,
    composite_stats s' = Some cs /\ block_stats s' = Some bs /\
    create_comparison_chart s' (Some cs) (Some bs) = inr (Some chart) /\
    forallb is_num (box_composite chart) = true /\
    forallb is_num (box_block chart) = true.
Proof.
  destruct (X13_analysis_then_chart session3 mapping_X mapping_X df3 df3)
    as [H1 [H2 [cs [bs [chart [H3 [H4 [H5 [_ [_ [H6 [H7 _]]]]]]]]]]]].
  - reflexivity.
  - reflexivity.
  - simpl. left. reflexivity.
  - simpl. left. reflexivity.
  - split; [exact H1 |]. split; [exact H2 |]. exists cs, bs, chart.
    repeat split; assumption.
Defined.

(** X14. Loading another composite file keeps the mapping and both
    records of the previous analysis; when the new file has no column
    with the mapped grade name, the comparison chart, which reads that
    column from the session, raises [KeyError]. *)
Theorem X14_stale_mapping_raises
  (s : session) (df : DataFrame) (comp blk : col_mapping) (cs bs : stats) :
  mapping s = Some (comp, blk) ->
  composite_stats s = Some cs -> block_stats s = Some bs ->
  ~ In (grade_col comp) (columns df) ->
  let s' := load_composite df s in
  mapping s' = Some (comp, blk) /\
  composite_stats s' = Some cs /\ block_stats s' = Some bs /\
  create_comparison_chart s' (composite_stats s') (block_stats s') =
    inl (Raised KeyError).
Proof.
  intros Hm Hcs Hbs Hnot s'. subst s'. unfold load_composite.
  cbn [mapping composite_stats block_stats]. rewrite Hm, Hcs, Hbs.
  repeat split.
  unfold create_comparison_chart, grade_series.
  cbn [composite_data mapping option_map fst].
  unfold getitem. rewrite lookup_None by exact Hnot. reflexivity.
Qed.

Lemma X14_stale_mapping_raises_witness :
  ~ In (grade_col mapping_X) (columns df_au) /\
  create_comparison_chart (load_composite df_au session_analysed)
    (composite_stats (load_composite df_au session_analysed))
    (block_stats (load_composite df_au session_analysed)) =
    inl (Raised KeyError).
Proof.
  assert (H : ~ In (grade_col mapping_X) (columns df_au)).
  { simpl. intros [H | []]. discriminate H. }
  split; [exact H |].
  exact (proj2 (proj2 (proj2
           (X14_stale_mapping_raises session_analysed df_au
              mapping_X mapping_X _ _ eq_refl eq_refl eq_refl H)))).
Defined.

(** ** Reading the report back *)

Lemma split_on_single (sep : ascii) (a : string) :
  no_char sep a -> split_on sep a = [a].
Proof.
  unfold no_char. induction a as [| c a IH]; simpl; [reflexivity |].
  intros H. apply andb_true_iff in H. destruct H as [Hc Ha].
  apply negb_true_iff in Hc. rewrite Hc, (IH Ha). reflexivity.
Qed.

Lemma split_on_app (sep : ascii) (a b : string) :
  no_char sep a ->
  split_on sep (a ++ String sep b) = a :: split_on sep b.
Proof.
  unfold no_char. induction a as [| c a IH]; simpl.
  - intros _. now rewrite Ascii.eqb_refl.
  - intros H. apply andb_true_iff in H. destruct H as [Hc Ha].
    apply negb_true_iff in Hc. rewrite Hc, (IH Ha). reflexivity.
Qed.

Lemma plain_no_comma (s : string) :
  all_chars plain s = true -> no_char "," s.
Proof.
  apply all_chars_impl. intros c H. unfold plain in H.
  now apply andb_true_iff in H.
Qed.

Lemma plain_no_newline (s : string) :
  all_chars plain s = true -> no_char (ascii_of_nat 10) s.
Proof.
  apply all_chars_impl. intros c H. unfold plain in H.
  now apply andb_true_iff in H.
Qed.

Lemma label_plain (m : metric) : all_chars plain (label m) = true.
Proof. now destruct m. Qed.

(** A row has four comma-separated fields and no line break. *)
Lemma row_shape_fields (m : metric) (r : string) :
  row_shape m r ->
  exists c b p,
    split_on "," r = [label m; c; b; p] /\ no_char (ascii_of_nat 10) r.
Proof.
  intros [c [b [p [-> [Hc [Hb Hp]]]]]]. exists c, b, p.
  apply numeric_plain in Hc, Hb, Hp. split.
  - cbn [append].
    rewrite !split_on_app by (apply plain_no_comma; auto using label_plain).
    now rewrite split_on_single by now apply plain_no_comma.
  - pose proof (plain_no_newline _ (label_plain m)) as Hl.
    apply plain_no_newline in Hc, Hb, Hp. unfold no_char in *.
    cbn [append]. repeat (rewrite all_chars_app; cbn [all_chars]).
    now rewrite Hl, Hc, Hb, Hp.
Qed.

Lemma split_lines (rows : list string) :
  Forall (no_char (ascii_of_nat 10)) rows ->
  split_on (ascii_of_nat 10)
    (String.concat "" (map (fun r => (r ++ newline)%string) rows))
  = rows ++ [EmptyString].
Proof.
  induction 1 as [| r rows Hr _ IH]; [reflexivity |].
  cbn [map]. destruct rows as [| r' rows'].
  - cbn [String.concat map app]. unfold newline.
    now rewrite split_on_app.
  - change (String.concat "" ((r ++ newline)%string ::
              map (fun r0 => (r0 ++ newline)%string) (r' :: rows')))
      with ((r ++ newline) ++ "" ++
            String.concat "" (map (fun r0 => (r0 ++ newline)%string)
                                  (r' :: rows')))%string.
    cbn [append]. unfold newline at 1. rewrite append_assoc. cbn [append].
    rewrite split_on_app by exact Hr. now rewrite IH.
Qed.

Lemma rows_read_back (l : list metric) (rows : list string) :
  Forall2 row_shape l rows ->
  Forall (no_char (ascii_of_nat 10)) rows /\
  Forall (fun r => List.length (split_on "," r) = 4%nat) rows /\
  map (fun r => hd EmptyString (split_on "," r)) rows = map label l.
Proof.
  induction 1 as [| m r l rows Hr _ [IH1 [IH2 IH3]]].
  - repeat split; constructor.
  - destruct (row_shape_fields m r Hr) as [c [b [p [Hs Hn]]]].
    split; [now constructor |]. split.
    + constructor; [now rewrite Hs | exact IH2].
    + cbn [map]. now rewrite Hs, IH3.
Qed.

(** The text of the report for two computed records. *)
Lemma csv_buffer_computed (g1 g2 : string) (s1 s2 : list float) :
  exists rows,
    csv_buffer (computed g1 s1) (computed g2 s2) =
      ret (header ++ newline ++
           String.concat "" (map (fun r => r ++ newline) rows))%string /\
    Forall2 row_shape all_metrics rows.
Proof.
  set (cs := computed g1 s1). set (bs := computed g2 s2).
  assert (Hc : forall m, convertible (field m cs))
    by (intros m; apply field_computed).
  assert (Hb : forall m, convertible (field m bs))
    by (intros m; apply field_computed).
  destruct (mapM_Forall2 (fun m => diff m cs bs) (fun _ d => convertible d)
              all_metrics) as [ds [Hds HF]].
  { intros m _. unfold diff.
    destruct (pct_diff_value (field m cs) (field m bs)) as [v [Hv [_ Hconv]]];
      [apply Hc | apply Hb | apply field_computed |].
    now exists v. }
  destruct (report_rows cs bs Hc Hb all_metrics ds HF) as [rows [Hrows HS]].
  exists rows. split; [| exact HS].
  unfold csv_buffer. rewrite Hds, bind_ret. cbv beta.
  rewrite Hrows, bind_ret. reflexivity.
Qed.

(** X15. The report of two computed records reads back as a table:
    split at the line breaks it gives eleven lines and a final empty
    string; every line splits at the commas into exactly four fields;
    and the first fields are "Métrique" followed by the ten labels in
    the order of the report.  No number or label brings in a comma or a
    line break of its own, also when a value is NaN or infinite. *)
Theorem X15_report_reads_back (d1 d2 : DataFrame) (g1 g2 : string) :
  In g1 (columns d1) -> In g2 (columns d2) ->
  exists cs bs text lines,
    snd (calculate_statistics (Some d1) g1) = ret (Some cs) /\
    snd (calculate_statistics (Some d2) g2) = ret (Some bs) /\
    csv_buffer cs bs = ret text /\
    split_on (ascii_of_nat 10) text = lines ++ [EmptyString] /\
    List.length lines = 11%nat /\
    Forall (fun l => List.length (split_on "," l) = 4%nat) lines /\
    map (fun l => hd EmptyString (split_on "," l)) lines =
      "Métrique"%string :: map label all_metrics.
Proof.
  intros H1 H2.
  destruct (calculate_statistics_present d1 g1 H1) as [c1 [_ E1]].
  destruct (calculate_statistics_present d2 g2 H2) as [c2 [_ E2]].
  rewrite E1, E2.
  destruct (csv_buffer_computed g1 g2 (Pandas.to_numeric c1)
              (Pandas.to_numeric c2)) as [rows [Hcsv HS]].
  destruct (rows_read_back _ _ HS) as [Hnl [Hfields Hfirst]].
  do 2 eexists. eexists. exists (header :: rows).
  split; [reflexivity |]. split; [reflexivity |]. split; [exact Hcsv |].
  split; [| split; [| split]].
  - unfold newline at 1. cbn [append].
    rewrite split_on_app by reflexivity.
    now rewrite split_lines.
  - cbn [List.length]. now rewrite <- (Forall2_length HS).
  - constructor; [reflexivity | exact Hfields].
  - cbn [map]. now rewrite Hfirst.
Qed.

Lemma X15_report_reads_back_witness :
  exists cs bs text lines,
    snd (calculate_statistics (Some df_zero) "AU") = ret (Some cs) /\
    snd (calculate_statistics (Some df_au) "AU_GPT") = ret (Some bs) /\
    csv_buffer cs bs = ret text /\
    split_on (ascii_of_nat 10) text = lines ++ [EmptyString] /\
    List.length lines = 11%nat.
Proof.
  destruct (X15_report_reads_back df_zero df_au "AU" "AU_GPT")
    as [cs [bs [text [lines [E1 [E2 [E3 [E4 [E5 _]]]]]]]]].
  - simpl. left. reflexivity.
  - simpl. left. reflexivity.
  - exists cs, bs, text, lines. repeat split; assumption.
Defined.

(** ** Statistics and figure together *)

(** X16. The 3D figure shows the grades the record was computed from:
    when [create_3d_scatter] runs on the DataFrame that
    [calculate_statistics] left behind, its own coercion of the grade
    column changes nothing, so the grade column of the plotted dataset
    is the coerced series of the record. *)
Theorem X16_figure_keeps_the_grades
  (perm : list nat) (d : DataFrame) (x y z g : string) (col : list cell) :
  getitem d g = Some col ->
  In x (columns d) -> In y (columns d) -> In z (columns d) ->
  exists d' d4,
    fst (calculate_statistics (Some d) g) = Some d' /\
    getitem d' g = Some (map Num (Pandas.to_numeric col)) /\
    create_3d_scatter perm (Some d') x y z g =
      ret (Some (d4, df_sample 5000 perm d4)) /\
    getitem d4 g = getitem d' g.
Proof.
  intros Hcol Hx Hy Hz.
  assert (Hg : In g (columns d)) by (apply lookup_Some_In with (1 := Hcol)).
  destruct (calculate_statistics_present d g Hg) as [col' [Hget Hcalc]].
  rewrite Hcol in Hget. injection Hget as <-.
  set (d' := setitem d g (map Num (Pandas.to_numeric col))) in *.
  assert (Hcols : columns d' = columns d).
  { unfold d', columns, setitem. simpl. apply assign_names. }
  assert (Hget' : getitem d' g = Some (map Num (Pandas.to_numeric col))).
  { apply getitem_setitem. now apply has_column_In. }
  destruct (create_3d_scatter_present perm d' x y z g)
    as [d4 [E4 [_ [_ Hk]]]]; try (rewrite Hcols; assumption).
  exists d', d4. rewrite Hcalc. split; [reflexivity |].
  split; [exact Hget' |]. split; [exact E4 |].
  rewrite (proj1 (Hk g)) by now left.
  unfold numeric_col. rewrite Hget'. cbn [option_map].
  now rewrite to_numeric_idempotent.
Qed.

Lemma X16_figure_keeps_the_grades_witness :
  exists d' d4,
    fst (calculate_statistics (Some df_two) "AU_GPT") = Some d' /\
    getitem d' "AU_GPT" =
      Some (map Num (Pandas.to_numeric [Num (lit 15 1); Text "n/a"])) /\
    create_3d_scatter [] (Some d') "AU_GPT" "AU_GPT" "AU_GPT" "AU_GPT" =
      ret (Some (d4, df_sample 5000 [] d4)) /\
    getitem d4 "AU_GPT" = getitem d' "AU_GPT".
Proof.
  apply (X16_figure_keeps_the_grades [] df_two
           "AU_GPT" "AU_GPT" "AU_GPT" "AU_GPT" [Num (lit 15 1); Text "n/a"]).
  - reflexivity.
  - simpl. right. left. reflexivity.
  - simpl. right. left. reflexivity.
  - simpl. right. left. reflexivity.
Defined.
